(** * Three line-oriented utilities: statistics, base conversion, word count

    A shallow embedding of [computeStatistics.py], [convertNumbers.py] and
    [wordCount.py], followed by the properties of their numeric algorithms,
    encodings and reports.

    Conventions of the embedding:
    - a Python [int] is a [Z] (unbounded, floor division, two's-complement
      bit operations), a count or a length is a [nat];
    - a Python [float] is a binary64 [float] of [PrimFloat], whose operations
      are the IEEE 754 ones that CPython uses;
    - a [str] is a [string]; a character is an [ascii] standing for a code
      point of the 8-bit range, classified by the run-time tables below;
    - a [dict] is an association list in insertion order, which is the order
      in which Python iterates over it;
    - [print], [sys.exit] and the writing of the result file are effects of
      a small state-and-exit monad over a [world]. *)

From Stdlib Require Import ZArith List String Ascii Bool Lia.
From Stdlib Require Import Permutation Sorted DecimalString.
From Stdlib Require Import Floats.
Import ListNotations.

Set Warnings "-inexact-float".

Open Scope list_scope.
Open Scope string_scope.

(** ** What the Python run time provides *)

(** The Unicode character tables, the parsers behind [float(...)] and
    [int(...)], the C library's [pow] and the path functions of [os.path]
    are not part of the repository:
    the utilities are modelled over any implementation of them. *)
Class Runtime : Type := {
  isspace : ascii -> bool;            (* str.isspace on one character *)
  isalnum : ascii -> bool;            (* str.isalnum on one character *)
  lower : ascii -> string;            (* str.lower on one character *)
  float_of_text : string -> option float;  (* float(text), None on ValueError *)
  int_of_text : string -> option Z;        (* int(text), None on ValueError *)
  float_pow : float -> float -> float;     (* x ** y on floats, x >= 0 *)
  file_tag_of : string -> string
    (* os.path.splitext(os.path.basename(path))[0] *)
}.

Module Py.

(** [str(n)] for an integer. *)
Definition str_int (z : Z) : string := NilZero.string_of_int (Z.to_int z).

Definition str_nat (n : nat) : string := str_int (Z.of_nat n).

(** [float(n)] for a length or a count. *)
Definition float_of_nat (n : nat) : float :=
  PrimFloat.of_uint63 (Uint63.of_Z (Z.of_nat n)).

(** [xs.append(x)]. *)
Definition append {A} (xs : list A) (x : A) : list A := (xs ++ [x])%list.

(** [sep.join(parts)]. *)
Fixpoint join (sep : string) (parts : list string) : string :=
  match parts with
  | [] => ""
  | p :: rest =>
      match rest with
      | [] => p
      | _ :: _ => p ++ sep ++ join sep rest
      end
  end.

(** [s.split(sep)] for a separator of one character: every occurrence
    of the separator cuts, so the result is never empty. *)
Fixpoint split (sep : ascii) (s : string) : list string :=
  match s with
  | EmptyString => [""]
  | String c rest =>
      if Ascii.eqb c sep then "" :: split sep rest
      else match split sep rest with
           | [] => [String c ""]
           | w :: ws => String c w :: ws
           end
  end.

(** [s.lstrip()], [s.rstrip()] and [s.strip()] over a whitespace test. *)
Fixpoint lstrip (space : ascii -> bool) (s : string) : string :=
  match s with
  | EmptyString => ""
  | String c rest => if space c then lstrip space rest else s
  end.

Fixpoint rstrip (space : ascii -> bool) (s : string) : string :=
  match s with
  | EmptyString => ""
  | String c rest =>
      match rstrip space rest with
      | EmptyString => if space c then "" else String c ""
      | r => String c r
      end
  end.

Definition strip (space : ascii -> bool) (s : string) : string :=
  rstrip space (lstrip space s).

(** A [dict] in insertion order. [same] is the equality of keys ([==] on
    the keys, which all hash alike when equal). *)
Section Dict.
Context {K V : Type} (same : K -> K -> bool).

(** [d.get(key, default)]. *)
Fixpoint dict_get (d : list (K * V)) (key : K) (default : V) : V :=
  match d with
  | [] => default
  | (k, v) :: rest => if same k key then v else dict_get rest key default
  end.

(** [d[key] = value]: a key already present keeps its place (and the key
    object first inserted), a new key goes last. *)
Fixpoint dict_set (d : list (K * V)) (key : K) (value : V) : list (K * V) :=
  match d with
  | [] => [(key, value)]
  | (k, v) :: rest =>
      if same k key then (k, value) :: rest
      else (k, v) :: dict_set rest key value
  end.

End Dict.

(** [list(range(start, stop, step))]; Python refuses a zero step. *)
Definition range (start stop step : Z) : list Z :=
  let len :=
    (if 0 <? step then (stop - start + step - 1) / step
     else if step <? 0 then (start - stop - step - 1) / (- step)
     else 0)%Z in
  map (fun k => (start + step * Z.of_nat k)%Z) (seq 0 (Z.to_nat len)).

(** [enumerate(xs, start=1)]. *)
Definition enumerate1 {A} (xs : list A) : list (nat * A) :=
  combine (seq 1 (List.length xs)) xs.

(** *** Formatted text

    An f-string is kept as the sequence of its parts: literal text and
    float values whose [repr] the run time prints. *)
Inductive piece : Type :=
| Lit (s : string)
| Num (x : float).

Definition text : Type := list piece.

(** The line feed, and ["\n".join(lines) + "\n"] for lines of formatted
    text. *)
Definition NL : string := String "010"%char "".

Definition unlines (lines : list text) : text :=
  List.concat (map (fun l => append l (Lit NL)) lines).

(** The part of a text that follows the literal [label], if any. *)
Fixpoint field (label : string) (t : text) : option piece :=
  match t with
  | [] => None
  | Lit s :: rest =>
      match rest with
      | p :: _ => if String.eqb s label then Some p else field label rest
      | [] => None
      end
  | Num _ :: rest => field label rest
  end.

(** *** Processes: console, result files and [sys.exit] *)
Record world : Type := {
  console : list text;             (* what [print] wrote, in order *)
  disk : list (string * text)      (* files written: name and content *)
}.

Definition boot : world := {| console := []; disk := [] |}.

Inductive outcome (A : Type) : Type :=
| Returned (a : A)
| Exited (status : Z).
Arguments Returned {A} a.
Arguments Exited {A} status.

Definition proc (A : Type) : Type := world -> outcome A * world.

Definition ret {A} (a : A) : proc A := fun w => (Returned a, w).

Definition bind {A B} (m : proc A) (k : A -> proc B) : proc B :=
  fun w =>
    match m w with
    | (Returned a, w') => k a w'
    | (Exited s, w') => (Exited s, w')
    end.

Definition print (t : text) : proc unit :=
  fun w => (Returned tt, {| console := append (console w) t; disk := disk w |}).

Definition sys_exit {A} (status : Z) : proc A := fun w => (Exited status, w).

(** [open(name, "w")] followed by [write(t)]: the file is replaced. *)
Definition write_file (name : string) (t : text) : proc unit :=
  fun w =>
    (Returned tt,
     {| console := console w;
        disk := (name, t)
                  :: filter (fun f => negb (String.eqb (fst f) name)) (disk w) |}).

(** [for x in xs: body(x)]. *)
Fixpoint for_each {A} (xs : list A) (body : A -> proc unit) : proc unit :=
  match xs with
  | [] => ret tt
  | x :: rest => bind (body x) (fun _ => for_each rest body)
  end.

(** The files that can be opened for reading: the lines of each, as the
    iteration over the file yields them; [None] is a missing file. *)
Definition filesystem : Type := string -> option (list string).

End Py.

Notation "x <- m ;; k" := (Py.bind m (fun x => k))
  (at level 61, m at next level, right associativity).
Notation "' pat <- m ;; k" :=
  (Py.bind m (fun x => match x with pat => k end))
  (at level 61, pat pattern, m at next level, right associativity).
Notation "m ;;; k" := (Py.bind m (fun _ => k))
  (at level 61, right associativity).

(** ** computeStatistics.py *)

Module computeStatistics.
Import Py.

Definition RESULT_FILE : string := "StatisticsResults.txt".

(** [mean]; it is called on a non-empty list only (on the empty list
    Python raises ZeroDivisionError where the model has 0/0). *)
Definition mean (values : list float) : float :=
  let total := fold_left (fun total value => (total + value)%float) values 0%float in
  (total / float_of_nat (List.length values))%float.

(** [sorted(values)]: Python's sort is stable and compares with [<] only.
    On a list without NaN, where [<] is a strict weak order, its result is
    the one of this stable insertion sort. *)
Fixpoint insert (x : float) (sorted_values : list float) : list float :=
  match sorted_values with
  | [] => [x]
  | y :: rest =>
      if (y <? x)%float then y :: insert x rest else x :: sorted_values
  end.

Definition sorted (values : list float) : list float :=
  fold_right insert [] values.

(** [median]; the indices are within the list as soon as it is not empty
    (the default [nan] stands for the IndexError of the empty list). *)
Definition median (values : list float) : float :=
  let sorted_values := sorted values in
  let n := List.length sorted_values in
  let middle := (n / 2)%nat in
  if (n mod 2 =? 1)%nat then nth middle sorted_values nan
  else ((nth (middle - 1) sorted_values nan + nth middle sorted_values nan) / 2)%float.

(** The loop [frequency[value] = frequency.get(value, 0) + 1] on a dict
    of floats: a key is found by [==], so 0.0 and -0.0 are one key (kept
    as first inserted) and the NaN of one line is never the NaN of another. *)
Definition frequencies (values : list float) : list (float * nat) :=
  fold_left
    (fun frequency value =>
       dict_set PrimFloat.eqb frequency value
                (dict_get PrimFloat.eqb frequency value 0 + 1)%nat)
    values [].

(** One turn of the loop that picks the largest of the most frequent. *)
Definition pick (max_count : nat) (best : option float) (entry : float * nat)
  : option float :=
  let '(val, count) := entry in
  if (count =? max_count)%nat then
    match best with
    | None => Some val
    | Some b => if (b <? val)%float then Some val else best
    end
  else best.

(** [mode]; it is called on a non-empty list only (on the empty list
    [max] raises ValueError where [list_max] is 0). *)
Definition mode (values : list float) : option float :=
  let frequency := frequencies values in
  let max_count := list_max (map snd frequency) in
  if (max_count =? 1)%nat then None
  else fold_left (pick max_count) frequency None.

Definition variance (values : list float) (avg : float) : float :=
  let total :=
    fold_left (fun total value =>
                 let diff := (value - avg)%float in (total + diff * diff)%float)
              values 0%float in
  let n := List.length values in
  if (n <? 2)%nat then 0%float
  else (total / float_of_nat (n - 1))%float.

Section WithRuntime.
Context `{Runtime}.

(** One turn of the loop of [read_numbers] on line [line_number]. *)
Definition read_number (acc : list float * list string) (nl : nat * string)
  : list float * list string :=
  let '(numbers, errors) := acc in
  let '(line_number, line) := nl in
  let text := strip isspace line in
  if String.eqb text "" then
    (numbers,
     append errors ("Line " ++ str_nat line_number ++ ": empty line (skipped)"))
  else
    match float_of_text text with
    | Some x => (append numbers x, errors)
    | None =>
        (numbers,
         append errors ("Line " ++ str_nat line_number ++ ": invalid number '"
                          ++ text ++ "' (skipped)"))
    end.

Definition read_numbers (fs : filesystem) (filename : string)
  : proc (list float * list string) :=
  match fs filename with
  | Some lines => ret (fold_left read_number (enumerate1 lines) ([], []))
  | None =>
      print [Lit ("ERROR: File not found: " ++ filename)] ;;;
      sys_exit 1
  end.

Definition standard_deviation (var : float) : float := float_pow var 0.5%float.

Definition save_results (t : text) : proc unit := write_file RESULT_FILE t.

(** The report that [main] builds from what it computed. *)
Definition results_text (filename : string) (n_valid n_errors : nat)
           (avg med : float) (mode_text : piece) (var std elapsed_time : float)
  : text :=
  unlines
    [ [Lit "Compute Statistics - Results"];
      [Lit "----------------------------"];
      [Lit ("Input file: " ++ filename)];
      [Lit ("Valid numbers: " ++ str_nat n_valid)];
      [Lit ("Invalid lines: " ++ str_nat n_errors)];
      [];
      [Lit "Descriptive Statistics (population):"];
      [Lit "Mean: "; Num avg];
      [Lit "Median: "; Num med];
      [Lit "Mode: "; mode_text];
      [Lit "Variance: "; Num var];
      [Lit "Standard deviation: "; Num std];
      [];
      [Lit "Elapsed time (s): "; Num elapsed_time] ].

(** [main], for the arguments [argv], the readable files [fs] and the
    time [elapsed_time] that the clock measures. *)
Definition main (argv : list string) (fs : filesystem) (elapsed_time : float)
  : proc unit :=
  match argv with
  | [_; filename] =>
      '(numbers, errors) <- read_numbers fs filename ;;
      for_each errors (fun error => print [Lit ("ERROR: " ++ error)]) ;;;
      if (List.length numbers =? 0)%nat then
        print [Lit "ERROR: No valid numbers found in the input file."] ;;;
        sys_exit 1
      else
        let avg := mean numbers in
        let med := median numbers in
        let mod' := mode numbers in
        let var := variance numbers avg in
        let var_population :=
          (var * float_of_nat (List.length numbers - 1)
           / float_of_nat (List.length numbers))%float in
        let std := standard_deviation var_population in
        let mode_text := match mod' with None => Lit "#N/A" | Some m => Num m end in
        let results :=
          results_text filename (List.length numbers) (List.length errors)
                       avg med mode_text var std elapsed_time in
        print results ;;;
        save_results results
  | _ =>
      print [Lit "Usage: python computeStatistics.py fileWithData.txt"] ;;;
      sys_exit 1
  end.

End WithRuntime.

End computeStatistics.

(** ** convertNumbers.py *)

Module convertNumbers.
Import Py.

Definition RESULT_FILE : string := "ConvertionResults.txt".
Definition HEX_DIGITS : string := "0123456789ABCDEF".

(** [HEX_DIGITS[i]]; the callers index with a value of 0..15 only (see
    [hex_index_in_range]). Outside 0..15, where Python raises IndexError
    or counts from the end, the model has the empty string. *)
Definition hex_digit (i : Z) : string :=
  match String.get (Z.to_nat i) HEX_DIGITS with
  | Some c => if (0 <=? i)%Z then String c "" else ""
  | None => ""
  end.

(** [while n > 0: digits.append(digit(n % base)); n //= base]. *)
Fixpoint digits_loop (base : Z) (digit : Z -> string) (fuel : nat)
         (n : Z) (digits : list string) : list string :=
  match fuel with
  | O => digits
  | S fuel' =>
      if (0 <? n)%Z
      then digits_loop base digit fuel' (n / base)%Z
                       (append digits (digit (n mod base)%Z))
      else digits
  end.

Definition to_binary (value : Z) : string :=
  if (0 <=? value)%Z then
    if (value =? 0)%Z then "0"
    else join "" (rev (digits_loop 2 str_int (Z.to_nat value) value []))
  else
    let width := 10%Z in
    let unsigned := (Z.shiftl 1 width + value)%Z in
    join "" (map (fun i => str_int (Z.land (Z.shiftr unsigned i) 1))
                 (range (width - 1)%Z (-1)%Z (-1)%Z)).

Definition to_hex (value : Z) : string :=
  if (0 <=? value)%Z then
    if (value =? 0)%Z then "0"
    else join "" (rev (digits_loop 16 hex_digit (Z.to_nat value) value []))
  else
    let width_bits := 40%Z in
    let unsigned := (Z.shiftl 1 width_bits + value)%Z in
    join "" (map (fun shift => hex_digit (Z.land (Z.shiftr unsigned shift) 15))
                 (range (width_bits - 4)%Z (-1)%Z (-4)%Z)).

Section WithRuntime.
Context `{Runtime}.

Definition item : Type := string * option Z.

(** One turn of the loop of [read_items] on line [line_number]. *)
Definition read_item (acc : list item * list string) (nl : nat * string)
  : list item * list string :=
  let '(items, errors) := acc in
  let '(line_number, line) := nl in
  let text := strip isspace line in
  if String.eqb text "" then
    (append items (text, None),
     append errors ("Line " ++ str_nat line_number ++ ": empty line (skipped)"))
  else
    match int_of_text text with
    | Some v => (append items (text, Some v), errors)
    | None =>
        (append items (text, None),
         append errors ("Line " ++ str_nat line_number ++ ": invalid number '"
                          ++ text ++ "' (skipped)"))
    end.

Definition read_items (fs : filesystem) (filename : string)
  : proc (list item * list string) :=
  match fs filename with
  | Some lines => ret (fold_left read_item (enumerate1 lines) ([], []))
  | None =>
      print [Lit ("ERROR: File not found: " ++ filename)] ;;;
      sys_exit 1
  end.

Definition save_results (t : text) : proc unit := write_file RESULT_FILE t.

Definition is_valid (it : item) : bool :=
  match snd it with Some _ => true | None => false end.

Definition row (it : item) : text :=
  match it with
  | (raw_text, None) => [Lit (raw_text ++ " | #VALUE! | #VALUE!")]
  | (_, Some value) =>
      [Lit (str_int value ++ " | " ++ to_binary value ++ " | " ++ to_hex value)]
  end.

Definition build_results_text (filename : string) (items : list item)
           (errors : list string) (elapsed_time : float) : text :=
  unlines
    ([ [Lit "Convert Numbers - Results"];
       [Lit "-------------------------"];
       [Lit ("Input file: " ++ filename)];
       [Lit ("Valid numbers: "
               ++ str_nat (List.length (filter is_valid items)))];
       [Lit ("Invalid lines: " ++ str_nat (List.length errors))];
       [Lit ""];
       [Lit "Number | Binary | Hex"];
       [Lit "---------------------"] ]
     ++ map row items
     ++ [ [Lit ""]; [Lit "Elapsed time (s): "; Num elapsed_time] ])%list.

(** [main], for the arguments [argv], the readable files [fs] and the
    time [elapsed_time] that the clock measures. *)
Definition main (argv : list string) (fs : filesystem) (elapsed_time : float)
  : proc unit :=
  match argv with
  | [_; filename] =>
      '(items, errors) <- read_items fs filename ;;
      for_each errors (fun error => print [Lit ("ERROR: " ++ error)]) ;;;
      if forallb (fun it => negb (is_valid it)) items then
        print [Lit "ERROR: No valid numbers found in the input file."] ;;;
        sys_exit 1
      else
        let results := build_results_text filename items errors elapsed_time in
        print results ;;;
        save_results results
  | _ =>
      print [Lit "Usage: python convertNumbers.py fileWithData.txt"] ;;;
      sys_exit 1
  end.

End WithRuntime.

End convertNumbers.

(** ** wordCount.py *)

Module wordCount.
Import Py.

Definition RESULT_FILE : string := "WordCountResults.txt".

Definition TAB : string := String "009"%char "".

Definition count_frequencies (words : list string) : list (string * nat) :=
  fold_left
    (fun freq w => dict_set String.eqb freq w (dict_get String.eqb freq w 0 + 1)%nat)
    words [].

Section WithRuntime.
Context `{Runtime}.

Definition normalize_token (token : string) : string :=
  join ""
       (fold_left (fun cleaned ch =>
                     if isalnum ch then append cleaned (lower ch) else cleaned)
                  (list_ascii_of_string token) []).

(** The inner loop of [read_words] over the parts of one line. *)
Definition add_parts (words : list string) (parts : list string) : list string :=
  fold_left (fun words part =>
               let normalized := normalize_token part in
               if String.eqb normalized "" then append words "(blank)"
               else append words normalized)
            parts words.

(** One turn of the outer loop of [read_words] on line [line_number]. *)
Definition read_line (acc : list string * list string) (nl : nat * string)
  : list string * list string :=
  let '(words, errors) := acc in
  let '(line_number, line) := nl in
  let raw_line := rstrip (Ascii.eqb "010"%char) line in
  if String.eqb (strip isspace raw_line) "" then
    (words,
     append errors ("Line " ++ str_nat line_number ++ ": empty line (skipped)"))
  else
    let parts := split " "%char raw_line in
    (add_parts words parts, errors).

Definition read_words (fs : filesystem) (filename : string)
  : proc (list string * list string) :=
  match fs filename with
  | Some lines => ret (fold_left read_line (enumerate1 lines) ([], []))
  | None =>
      print [Lit ("ERROR: File not found: " ++ filename)] ;;;
      sys_exit 1
  end.

Definition build_report (filename : string) (freq : list (string * nat))
           (total : nat) (elapsed : float) : text :=
  let file_tag := file_tag_of filename in
  unlines
    ([ [Lit ("Row Labels" ++ TAB ++ "Count of " ++ file_tag)] ]
     ++ map (fun '(word, count) => [Lit (word ++ TAB ++ str_nat count)]) freq
     ++ [ [Lit ("Grand Total" ++ TAB ++ str_nat total)];
          [Lit "Elapsed time (s): "; Num elapsed] ])%list.

Definition save_results (t : text) : proc unit := write_file RESULT_FILE t.

(** [main], for the arguments [argv], the readable files [fs] and the
    time [elapsed] that the clock measures. *)
Definition main (argv : list string) (fs : filesystem) (elapsed : float)
  : proc unit :=
  match argv with
  | [_; filename] =>
      '(words, errors) <- read_words fs filename ;;
      for_each errors (fun err => print [Lit ("ERROR: " ++ err)]) ;;;
      if (List.length words =? 0)%nat then
        print [Lit "ERROR: No words found in the input file."] ;;;
        sys_exit 1
      else
        let freq := count_frequencies words in
        let report := build_report filename freq (List.length words) elapsed in
        print report ;;;
        save_results report
  | _ =>
      print [Lit "Usage: python wordCount.py fileWithData.txt"] ;;;
      sys_exit 1
  end.

End WithRuntime.

End wordCount.

(** ** Fixed-width renderings, and reading an encoding back

  The reference against which the encodings of negative numbers are
  stated: the most significant digit comes first. *)

Module Encoding.

Definition bit_char (b : bool) : ascii := if b then "1"%char else "0"%char.

(** The [width] low bits of [u]. *)
Fixpoint bits_fixed (width : nat) (u : Z) : string :=
  match width with
  | O => ""
  | S k => String (bit_char (Z.testbit u (Z.of_nat k))) (bits_fixed k u)
  end.

(** The digit of weight [16^k] of [u], in 0..15. *)
Definition nibble (u : Z) (k : nat) : Z := ((u / 16 ^ Z.of_nat k) mod 16)%Z.

Definition hex_char (d : Z) : ascii :=
  match String.get (Z.to_nat d) convertNumbers.HEX_DIGITS with
  | Some c => c
  | None => "?"%char
  end.

(** The [width] low hexadecimal digits of [u], in upper case. *)
Fixpoint hex_fixed (width : nat) (u : Z) : string :=
  match width with
  | O => ""
  | S k => String (hex_char (nibble u k)) (hex_fixed k u)
  end.

(** The value of a digit of the given base: [0-9] and upper case [A-F]. *)
Definition digit_value (base : Z) (c : ascii) : option Z :=
  match String.index 0 (String c "") convertNumbers.HEX_DIGITS with
  | Some i => if (Z.of_nat i <? base)%Z then Some (Z.of_nat i) else None
  | None => None
  end.

Fixpoint decode_from (base acc : Z) (s : string) : option Z :=
  match s with
  | EmptyString => Some acc
  | String c rest =>
      match digit_value base c with
      | Some d => decode_from base (acc * base + d)%Z rest
      | None => None
      end
  end.

(** The number that a non-empty string of digits of [base] denotes. *)
Definition decode (base : Z) (s : string) : option Z :=
  match s with
  | EmptyString => None
  | _ => decode_from base 0 s
  end.

End Encoding.

(** ** The three utilities as one family *)

Module Utility.
Import Py.

Inductive utility : Type := Statistics | Conversion | WordCount.

Section WithRuntime.
Context `{Runtime}.

Definition run (u : utility)
  : list string -> filesystem -> float -> proc unit :=
  match u with
  | Statistics => computeStatistics.main
  | Conversion => convertNumbers.main
  | WordCount => wordCount.main
  end.

(** How many entries of the file the utility can work on: numbers read,
    lines that are integers, words. *)
Definition valid_entries (u : utility) (lines : list string) : nat :=
  match u with
  | Statistics =>
      List.length
        (fst (fold_left computeStatistics.read_number (enumerate1 lines) ([], [])))
  | Conversion =>
      List.length
        (filter convertNumbers.is_valid
                (fst (fold_left convertNumbers.read_item (enumerate1 lines) ([], []))))
  | WordCount =>
      List.length
        (fst (fold_left wordCount.read_line (enumerate1 lines) ([], [])))
  end.

End WithRuntime.

End Utility.

(** ** A run time for the examples

    ASCII character tables, decimal integer literals (Python reads more
    than these), the square root for the power one half and a plain
    reading of file names. *)

Module Example.

Definition code (c : ascii) : nat := nat_of_ascii c.

Definition between (lo hi : nat) (c : ascii) : bool :=
  ((lo <=? code c) && (code c <=? hi))%nat.

Definition ex_isspace (c : ascii) : bool := between 9 13 c || between 28 32 c.

Definition ex_isalnum (c : ascii) : bool :=
  between 48 57 c || between 65 90 c || between 97 122 c.

Definition ex_lower (c : ascii) : string :=
  String (if between 65 90 c then ascii_of_nat (code c + 32) else c) "".

Fixpoint digits_value (acc : Z) (s : string) : option Z :=
  match s with
  | EmptyString => Some acc
  | String c rest =>
      if between 48 57 c
      then digits_value (acc * 10 + Z.of_nat (code c - 48))%Z rest
      else None
  end.

Definition magnitude (s : string) : option Z :=
  match s with
  | EmptyString => None
  | _ => digits_value 0 s
  end.

Definition ex_int (s : string) : option Z :=
  match s with
  | String "-" rest => option_map Z.opp (magnitude rest)
  | String "+" rest => magnitude rest
  | _ => magnitude s
  end.

Definition float_magnitude (s : string) : option float :=
  match magnitude s with
  | Some z =>
      if (z <=? 2 ^ 53)%Z then Some (PrimFloat.of_uint63 (Uint63.of_Z z)) else None
  | None => None
  end.

Definition ex_float (s : string) : option float :=
  match s with
  | String "-" rest => option_map PrimFloat.opp (float_magnitude rest)
  | String "+" rest => float_magnitude rest
  | _ => float_magnitude s
  end.

Definition ex_pow (x y : float) : float :=
  if (y =? 0.5)%float then PrimFloat.sqrt x else nan.

(** The name after the last [/], without its last extension. *)
Definition ex_file_tag (path : string) : string :=
  let name := last (Py.split "/"%char path) "" in
  match rev (Py.split "."%char name) with
  | _ :: (_ :: _) as stem_rev =>
      let stem := Py.join "." (rev stem_rev) in
      if String.eqb stem "" then name else stem
  | _ => name
  end.

Definition runtime : Runtime :=
  {| isspace := ex_isspace;
     isalnum := ex_isalnum;
     lower := ex_lower;
     float_of_text := ex_float;
     int_of_text := ex_int;
     float_pow := ex_pow;
     file_tag_of := ex_file_tag |}.

(** A file system with one file. *)
Definition one_file (name : string) (lines : list string) : Py.filesystem :=
  fun f => if String.eqb f name then Some lines else None.

(** The lines of a file whose every line ends with a line feed. *)
Definition with_newlines (lines : list string) : list string :=
  map (fun l => l ++ Py.NL) lines.

End Example.

(** ** Reference notions for the properties *)

Module Spec.

Section Counting.
Context {K : Type} (same : K -> K -> bool).

(** How often [k] occurs in [l], up to [same]. *)
Definition occurrences (k : K) (l : list K) : nat :=
  List.length (filter (same k) l).

(** The elements of [l] without repetition, in the order in which each is
    first met. *)
Fixpoint distinct (l : list K) : list K :=
  match l with
  | [] => []
  | x :: rest => x :: filter (fun y => negb (same x y)) (distinct rest)
  end.

(** The counting loop shared by [mode] and [count_frequencies]. *)
Definition tally (l : list K) : list (K * nat) :=
  fold_left
    (fun d k => Py.dict_set same d k (Py.dict_get same d k 0 + 1)%nat) l [].

End Counting.

(** A sample is numeric when it is not a NaN. *)
Definition numeric (x : float) : Prop := is_nan x = false.

(** A sample is finite when it is neither a NaN nor an infinity. *)
Definition finite (x : float) : Prop := is_finite x = true.

(** Equal as numbers, which is [==] on numeric floats: the same float, or
    two zeros whatever their signs. *)
Definition same_value (x y : float) : Prop :=
  x = y \/ (is_zero x = true /\ is_zero y = true).

(** The place of a float in the order of [<]: its sign class, then its
    exponent and its mantissa, both counted downwards when negative. *)
Definition skey (f : spec_float) : Z * Z * Z :=
  match f with
  | S754_zero _ => (0, 0, 0)
  | S754_infinity false => (2, 0, 0)
  | S754_infinity true => (-2, 0, 0)
  | S754_nan => (3, 0, 0)
  | S754_finite false m e => (1, e, Zpos m)
  | S754_finite true m e => (-1, - e, Zneg m)
  end%Z.

Definition fkey (x : float) : Z * Z * Z := skey (Prim2SF x).

(** The lexicographic order of the places. *)
Definition klt (k1 k2 : Z * Z * Z) : Prop :=
  let '(a1, b1, c1) := k1 in
  let '(a2, b2, c2) := k2 in
  (a1 < a2 \/ (a1 = a2 /\ (b1 < b2 \/ (b1 = b2 /\ c1 < c2))))%Z.

Definition kle (k1 k2 : Z * Z * Z) : Prop := ~ klt k2 k1.

(** [a] is not after [b]. *)
Definition fle (a b : float) : Prop := kle (fkey a) (fkey b).

(** The highest number of occurrences of a value among the values. *)
Definition max_frequency (values : list float) : nat :=
  list_max (map (fun v => occurrences PrimFloat.eqb v values) values).

(** What the loop over the table has picked after the keys [seen]. *)
Definition picked (values : list float) (m : nat) (seen : list float)
           (best : option float) : Prop :=
  match best with
  | None => forall k, In k seen -> occurrences PrimFloat.eqb k values <> m
  | Some b =>
      In b seen /\ occurrences PrimFloat.eqb b values = m
      /\ forall k, In k seen -> occurrences PrimFloat.eqb k values = m -> fle k b
  end.

(** The sum of a list of floats, taken in the order of the list. *)
Definition float_sum (l : list float) : float :=
  fold_left PrimFloat.add l 0%float.

(** The squared deviations of the values from [avg]. *)
Definition squared_deviations (values : list float) (avg : float) : list float :=
  map (fun value => ((value - avg) * (value - avg))%float) values.

(** The population variance: the sample variance rescaled by (n-1)/n. *)
Definition population_variance (values : list float) : float :=
  (computeStatistics.variance values (computeStatistics.mean values)
   * Py.float_of_nat (List.length values - 1)
   / Py.float_of_nat (List.length values))%float.

Section Words.
Context `{Runtime}.

(** A token reduced to its alphanumeric characters, in lower case. *)
Definition reduced (part : string) : string :=
  String.concat "" (map lower (filter isalnum (list_ascii_of_string part))).

(** The word that a part of a line counts as. *)
Definition token (part : string) : string :=
  if String.eqb (reduced part) "" then "(blank)" else reduced part.

End Words.

(** A digit function renders every digit of the base as one character
    that reads back as the digit. *)
Definition renders (base : Z) (digit : Z -> string) : Prop :=
  forall d, (0 <= d < base)%Z ->
            exists c, digit d = String c ""
                      /\ Encoding.digit_value base c = Some d.

End Spec.


(** ** Reference notions for the further properties *)

Module Laws.


(** The float is not below zero: its sign bit is clear, or it is a NaN. *)
Definition not_negative (f : spec_float) : Prop :=
  match f with
  | S754_nan => True
  | S754_zero s => s = false
  | S754_infinity s => s = false
  | S754_finite s _ _ => s = false
  end.

(** How many times the character [c] occurs in [s]. *)
Definition count_char (c : ascii) (s : string) : nat :=
  count_occ ascii_dec (list_ascii_of_string s) c.

Section Reading.
Context `{Runtime}.

(** What a line of the input of the conversion becomes. *)
Definition item_of (line : string) : convertNumbers.item :=
  let text := Py.strip isspace line in
  (text, if String.eqb text "" then None else int_of_text text).

(** The number that a line of the input of the statistics holds. *)
Definition number_of (line : string) : option float :=
  let text := Py.strip isspace line in
  if String.eqb text "" then None else float_of_text text.

(** The numbers of the lines that hold one, in the order of the file. *)
Definition numbers_of (lines : list string) : list float :=
  flat_map (fun line => match number_of line with Some x => [x] | None => [] end)
           lines.

(** A line without anything but white space. *)
Definition blank (line : string) : bool :=
  String.eqb (Py.strip isspace (Py.rstrip (Ascii.eqb "010"%char) line)) "".

(** The words that a line of the input of the word count gives. *)
Definition words_of (line : string) : list string :=
  if blank line then []
  else map Spec.token
           (Py.split " "%char (Py.rstrip (Ascii.eqb "010"%char) line)).

End Reading.

Section Consoles.
Context `{Runtime}.

(** The errors that a utility records while it reads the lines. *)
Definition errors_of (u : Utility.utility) (lines : list string) : list string :=
  match u with
  | Utility.Statistics =>
      snd (fold_left computeStatistics.read_number (Py.enumerate1 lines) ([], []))
  | Utility.Conversion =>
      snd (fold_left convertNumbers.read_item (Py.enumerate1 lines) ([], []))
  | Utility.WordCount =>
      snd (fold_left wordCount.read_line (Py.enumerate1 lines) ([], []))
  end.

(** The console lines that show the errors. *)
Definition error_lines (errors : list string) : list Py.text :=
  map (fun error => [Py.Lit ("ERROR: " ++ error)]) errors.

(** The usage line of each utility. *)
Definition usage (u : Utility.utility) : string :=
  match u with
  | Utility.Statistics => "Usage: python computeStatistics.py fileWithData.txt"
  | Utility.Conversion => "Usage: python convertNumbers.py fileWithData.txt"
  | Utility.WordCount => "Usage: python wordCount.py fileWithData.txt"
  end.

(** The line that tells that the file holds no valid entry. *)
Definition nothing_found (u : Utility.utility) : string :=
  match u with
  | Utility.Statistics => "ERROR: No valid numbers found in the input file."
  | Utility.Conversion => "ERROR: No valid numbers found in the input file."
  | Utility.WordCount => "ERROR: No words found in the input file."
  end.

(** All that a run that ends fatally prints: the usage line for a wrong
    number of arguments, the line of the missing file, or the errors of
    the lines and then the line that nothing was found. *)
Definition fatal_console (u : Utility.utility) (argv : list string)
           (fs : Py.filesystem) : list Py.text :=
  match argv with
  | [_; filename] =>
      match fs filename with
      | None => [[Py.Lit ("ERROR: File not found: " ++ filename)]]
      | Some lines =>
          (error_lines (errors_of u lines) ++ [[Py.Lit (nothing_found u)]])%list
      end
  | _ => [[Py.Lit (usage u)]]
  end.


End Consoles.

End Laws.

(** * Properties *)

(** ** Base conversion *)

Section ConvertNumbers.
Import Py convertNumbers Encoding Spec.

Example to_binary_8 : to_binary 8 = "1000".
Proof. reflexivity. Qed.

Example to_hex_255 : to_hex 255 = "FF".
Proof. reflexivity. Qed.

Example to_binary_0 : to_binary 0 = "0" /\ to_hex 0 = "0".
Proof. split; reflexivity. Qed.

Lemma land_1_testbit (u i : Z) :
  (0 <= i)%Z -> Z.land (Z.shiftr u i) 1 = Z.b2z (Z.testbit u i).
Proof.
  intro Hi.
  change 1%Z with (Z.ones 1).
  rewrite Z.land_ones by lia.
  rewrite <- Z.bit0_mod, Z.shiftr_spec by lia.
  reflexivity.
Qed.

Lemma bit_digit (u i : Z) :
  (0 <= i)%Z ->
  str_int (Z.land (Z.shiftr u i) 1) = String (bit_char (Z.testbit u i)) "".
Proof.
  intro Hi. rewrite land_1_testbit by exact Hi.
  destruct (Z.testbit u i); reflexivity.
Qed.

Lemma land_15_nibble (u : Z) (k : nat) :
  Z.land (Z.shiftr u (4 * Z.of_nat k)) 15 = nibble u k.
Proof.
  unfold nibble.
  change 15%Z with (Z.ones 4).
  rewrite Z.land_ones, Z.shiftr_div_pow2 by lia.
  rewrite Z.pow_mul_r by lia.
  reflexivity.
Qed.

Lemma nibble_range (u : Z) (k : nat) : (0 <= nibble u k < 16)%Z.
Proof. unfold nibble. apply Z.mod_pos_bound. lia. Qed.

(** The index into [HEX_DIGITS] is always a valid one. *)
Lemma hex_index_in_range (d : Z) :
  (0 <= d < 16)%Z -> hex_digit d = String (hex_char d) "".
Proof.
  intro Hd.
  assert (Hcases : In d [0; 1; 2; 3; 4; 5; 6; 7; 8; 9; 10; 11; 12; 13; 14; 15]%Z).
  { simpl. lia. }
  simpl in Hcases.
  repeat (destruct Hcases as [<- | Hcases]; [reflexivity |]).
  contradiction.
Qed.

Lemma to_binary_negative (v : Z) :
  (v < 0)%Z -> to_binary v = bits_fixed 10 (2 ^ 10 + v).
Proof.
  intro Hv. unfold to_binary.
  destruct (0 <=? v)%Z eqn:E; [apply Z.leb_le in E; lia |].
  cbv zeta.
  change (range (10 - 1) (-1) (-1)) with [9; 8; 7; 6; 5; 4; 3; 2; 1; 0]%Z.
  change (Z.shiftl 1 10) with (2 ^ 10)%Z.
  cbn [map]. rewrite !bit_digit by lia.
  reflexivity.
Qed.

Lemma to_hex_negative (v : Z) :
  (v < 0)%Z -> to_hex v = hex_fixed 10 (2 ^ 40 + v).
Proof.
  intro Hv. unfold to_hex.
  destruct (0 <=? v)%Z eqn:E; [apply Z.leb_le in E; lia |].
  cbv zeta.
  change (range (40 - 4) (-1) (-4))
    with (map (fun k => 4 * Z.of_nat k)%Z [9; 8; 7; 6; 5; 4; 3; 2; 1; 0]%nat).
  change (Z.shiftl 1 40) with (2 ^ 40)%Z.
  cbn [map]. rewrite !land_15_nibble.
  rewrite !hex_index_in_range by apply nibble_range.
  reflexivity.
Qed.

Lemma bits_fixed_length (w : nat) (u : Z) : String.length (bits_fixed w u) = w.
Proof. induction w as [| k IH]; simpl; [reflexivity | now rewrite IH]. Qed.

Lemma hex_fixed_length (w : nat) (u : Z) : String.length (hex_fixed w u) = w.
Proof. induction w as [| k IH]; simpl; [reflexivity | now rewrite IH]. Qed.

Lemma digit_value_bit (b : bool) : digit_value 2 (bit_char b) = Some (Z.b2z b).
Proof. destruct b; reflexivity. Qed.

Lemma digit_value_hex (d : Z) :
  (0 <= d < 16)%Z -> digit_value 16 (hex_char d) = Some d.
Proof.
  intro Hd.
  assert (Hcases : In d [0; 1; 2; 3; 4; 5; 6; 7; 8; 9; 10; 11; 12; 13; 14; 15]%Z).
  { simpl. lia. }
  simpl in Hcases.
  repeat (destruct Hcases as [<- | Hcases]; [reflexivity |]).
  contradiction.
Qed.

(** Reading a fixed-width rendering back gives the number modulo the width. *)
Lemma decode_from_bits_fixed (w : nat) (u acc : Z) :
  decode_from 2 acc (bits_fixed w u)
  = Some (acc * 2 ^ Z.of_nat w + u mod 2 ^ Z.of_nat w)%Z.
Proof.
  revert acc. induction w as [| k IH]; intro acc.
  - simpl. rewrite Z.mod_1_r. f_equal. lia.
  - cbn [bits_fixed decode_from]. rewrite digit_value_bit, IH. f_equal.
    rewrite Z.testbit_spec' by lia.
    rewrite Nat2Z.inj_succ, Z.pow_succ_r by lia.
    rewrite (Z.mul_comm 2 (2 ^ Z.of_nat k)).
    rewrite (Z.rem_mul_r u (2 ^ Z.of_nat k) 2) by lia.
    ring.
Qed.

Lemma decode_from_hex_fixed (w : nat) (u acc : Z) :
  decode_from 16 acc (hex_fixed w u)
  = Some (acc * 16 ^ Z.of_nat w + u mod 16 ^ Z.of_nat w)%Z.
Proof.
  revert acc. induction w as [| k IH]; intro acc.
  - simpl. rewrite Z.mod_1_r. f_equal. lia.
  - cbn [hex_fixed decode_from].
    rewrite digit_value_hex by apply nibble_range.
    rewrite IH. f_equal. unfold nibble.
    rewrite Nat2Z.inj_succ, Z.pow_succ_r by lia.
    rewrite (Z.mul_comm 16 (16 ^ Z.of_nat k)).
    rewrite (Z.rem_mul_r u (16 ^ Z.of_nat k) 16) by lia.
    ring.
Qed.

(** A fixed-width rendering looks at the number modulo the width only. *)
Lemma bits_fixed_low (w n : nat) (u : Z) :
  (w <= n)%nat -> bits_fixed w (u mod 2 ^ Z.of_nat n) = bits_fixed w u.
Proof.
  induction w as [| k IH]; intro Hle; simpl; [reflexivity |].
  rewrite Z.mod_pow2_bits_low by lia.
  rewrite IH by lia. reflexivity.
Qed.

Lemma nibble_low (n k : nat) (u : Z) :
  (k < n)%nat -> nibble (u mod 16 ^ Z.of_nat n) k = nibble u k.
Proof.
  intro Hk. unfold nibble.
  replace (Z.of_nat n) with (Z.of_nat k + (1 + Z.of_nat (n - k - 1)))%Z by lia.
  rewrite Z.pow_add_r, Z.pow_add_r by lia.
  rewrite Z.rem_mul_r by lia.
  rewrite Z.mul_comm, Z.div_add by lia.
  rewrite Z.div_small, Z.add_0_l by (apply Z.mod_pos_bound; lia).
  change (16 ^ 1)%Z with 16%Z.
  apply Z.mod_mod_divide.
  exists (16 ^ Z.of_nat (n - k - 1))%Z. ring.
Qed.

Lemma hex_fixed_low (w n : nat) (u : Z) :
  (w <= n)%nat -> hex_fixed w (u mod 16 ^ Z.of_nat n) = hex_fixed w u.
Proof.
  induction w as [| k IH]; intro Hle; simpl; [reflexivity |].
  rewrite nibble_low by lia.
  rewrite IH by lia. reflexivity.
Qed.

(** *** Non-negative numbers: the loop, and reading its result back *)

Lemma append_empty_r (s : string) : s ++ "" = s.
Proof. induction s as [| c r IH]; simpl; [reflexivity | now rewrite IH]. Qed.

Lemma append_assoc (a b c : string) : (a ++ b) ++ c = a ++ (b ++ c).
Proof. induction a as [| x r IH]; simpl; [reflexivity | now rewrite IH]. Qed.

Lemma join_empty_cons (d : string) (l : list string) :
  join "" (d :: l) = d ++ join "" l.
Proof. destruct l; simpl; [now rewrite append_empty_r | reflexivity]. Qed.

Lemma decode_from_app (base a : Z) (s1 s2 : string) :
  decode_from base a (s1 ++ s2)
  = match decode_from base a s1 with
    | Some a' => decode_from base a' s2
    | None => None
    end.
Proof.
  revert a. induction s1 as [| c r IH]; intro a; simpl; [reflexivity |].
  destruct (digit_value base c); [apply IH | reflexivity].
Qed.

Lemma str_int_renders : renders 2 str_int.
Proof.
  intros d Hd. assert (Hc : d = 0%Z \/ d = 1%Z) by lia.
  destruct Hc as [-> | ->]; eexists; split; reflexivity.
Qed.

Lemma hex_digit_renders : renders 16 hex_digit.
Proof.
  intros d Hd. exists (hex_char d). split.
  - now apply hex_index_in_range.
  - now apply digit_value_hex.
Qed.

(** With fuel for [n] turns the loop has consumed [n]: what it appended,
    read most significant digit first, denotes [n]. *)
Lemma digits_loop_decode (base : Z) (digit : Z -> string) :
  (2 <= base)%Z -> renders base digit ->
  forall (fuel : nat) (n : Z) (digits : list string),
    (0 <= n <= Z.of_nat fuel)%Z ->
    exists r,
      join "" (rev (digits_loop base digit fuel n digits))
      = r ++ join "" (rev digits)
      /\ (0 < n -> r <> "")%Z
      /\ forall a, exists k : nat,
           decode_from base a r = Some (a * base ^ Z.of_nat k + n)%Z.
Proof.
  intros Hbase Hdigit.
  induction fuel as [| fuel IH]; intros n digits Hn.
  - exists "". assert (n = 0%Z) as -> by lia.
    repeat split; [lia |].
    intro a. exists 0%nat. simpl. f_equal. lia.
  - cbn [digits_loop]. destruct (0 <? n)%Z eqn:Hpos.
    + apply Z.ltb_lt in Hpos.
      assert (Hq : (0 <= n / base <= Z.of_nat fuel)%Z).
      { split; [apply Z.div_pos; lia |].
        assert (n / base < n)%Z by (apply Z.div_lt; lia). lia. }
      destruct (IH (n / base)%Z (append digits (digit (n mod base)%Z)) Hq)
        as (r' & Hjoin & _ & Hdec).
      destruct (Hdigit (n mod base)%Z) as (c & Hc & Hv);
        [apply Z.mod_pos_bound; lia |].
      exists (r' ++ String c ""). split; [| split].
      * rewrite Hjoin. unfold append. rewrite rev_app_distr. cbn [rev app].
        rewrite join_empty_cons, Hc, append_assoc. reflexivity.
      * intros _. destruct r'; discriminate.
      * intro a. destruct (Hdec a) as (k & Hk). exists (S k).
        rewrite decode_from_app, Hk. cbn [decode_from]. rewrite Hv. f_equal.
        rewrite Nat2Z.inj_succ, Z.pow_succ_r by lia.
        rewrite (Z.div_mod n base) at 3 by lia. ring.
    + apply Z.ltb_ge in Hpos. assert (n = 0%Z) as -> by lia.
      exists "". repeat split; [lia |].
      intro a. exists 0%nat. simpl. f_equal. lia.
Qed.

Lemma decode_nonempty (base : Z) (s : string) :
  s <> "" -> decode base s = decode_from base 0 s.
Proof. destruct s; [congruence | reflexivity]. Qed.

(** Reading back the rendering of a non-negative number gives the number:
    [decode] is the inverse of the code's own rendering. *)
Lemma decode_to_binary_nonneg (v : Z) :
  (0 <= v)%Z -> decode 2 (to_binary v) = Some v.
Proof.
  intro Hv. unfold to_binary.
  destruct (0 <=? v)%Z eqn:E; [| apply Z.leb_gt in E; lia].
  destruct (v =? 0)%Z eqn:E0; [apply Z.eqb_eq in E0; subst; reflexivity |].
  apply Z.eqb_neq in E0.
  destruct (digits_loop_decode 2 str_int ltac:(lia) str_int_renders
              (Z.to_nat v) v []) as (r & Hjoin & Hne & Hdec); [lia |].
  rewrite Hjoin. cbn [rev join]. rewrite append_empty_r.
  rewrite decode_nonempty by (apply Hne; lia).
  destruct (Hdec 0%Z) as (k & ->). f_equal.
Qed.

Lemma decode_to_hex_nonneg (v : Z) :
  (0 <= v)%Z -> decode 16 (to_hex v) = Some v.
Proof.
  intro Hv. unfold to_hex.
  destruct (0 <=? v)%Z eqn:E; [| apply Z.leb_gt in E; lia].
  destruct (v =? 0)%Z eqn:E0; [apply Z.eqb_eq in E0; subst; reflexivity |].
  apply Z.eqb_neq in E0.
  destruct (digits_loop_decode 16 hex_digit ltac:(lia) hex_digit_renders
              (Z.to_nat v) v []) as (r & Hjoin & Hne & Hdec); [lia |].
  rewrite Hjoin. cbn [rev join]. rewrite append_empty_r.
  rewrite decode_nonempty by (apply Hne; lia).
  destruct (Hdec 0%Z) as (k & ->). f_equal.
Qed.

(** *** Negative numbers *)

(** C2: for every negative value, [to_binary] is the rendering on exactly
    10 bits of [2^10 + value] and [to_hex] the rendering on exactly 10
    upper-case hexadecimal digits of [2^40 + value]; where [2^k + value]
    is not negative the text reads back as that number; and -1 gives
    "1111111111" and "FFFFFFFFFF". *)
Theorem negative_twos_complement (value : Z) :
  (value < 0)%Z ->
  (to_binary value = bits_fixed 10 (2 ^ 10 + value)
   /\ String.length (to_binary value) = 10%nat
   /\ (0 <= 2 ^ 10 + value -> decode 2 (to_binary value) = Some (2 ^ 10 + value))%Z)
  /\ (to_hex value = hex_fixed 10 (2 ^ 40 + value)
      /\ String.length (to_hex value) = 10%nat
      /\ (0 <= 2 ^ 40 + value -> decode 16 (to_hex value) = Some (2 ^ 40 + value))%Z)
  /\ to_binary (-1) = "1111111111"
  /\ to_hex (-1) = "FFFFFFFFFF".
Proof.
  intro Hneg.
  rewrite (to_binary_negative value Hneg), (to_hex_negative value Hneg).
  split; [| split; [| split; reflexivity]].
  - split; [reflexivity | split; [apply bits_fixed_length |]].
    intro Hu. rewrite decode_nonempty by discriminate.
    rewrite decode_from_bits_fixed.
    f_equal. rewrite Z.mod_small; lia.
  - split; [reflexivity | split; [apply hex_fixed_length |]].
    intro Hu. rewrite decode_nonempty by discriminate.
    rewrite decode_from_hex_fixed.
    f_equal. rewrite Z.mod_small; lia.
Qed.

Lemma negative_twos_complement_witness :
  (-3 < 0)%Z /\ to_binary (-3) = "1111111101" /\ to_hex (-3) = "FFFFFFFFFD".
Proof.
  split; [lia |].
  destruct (negative_twos_complement (-3) ltac:(lia))
    as ((Hb & _ & _) & (Hh & _ & _) & _).
  rewrite Hb, Hh. split; reflexivity.
Defined.

(** C9: for every negative integer, however large its magnitude,
    [to_binary] gives exactly 10 characters that are the binary digits of
    [value mod 2^10], and [to_hex] exactly 10 upper-case hexadecimal digits
    that are those of [value mod 2^40]: numbers below the width wrap
    around. *)
Theorem negative_wraps_modulo_width (value : Z) :
  (value < 0)%Z ->
  (to_binary value = bits_fixed 10 (value mod 2 ^ 10)
   /\ String.length (to_binary value) = 10%nat
   /\ decode 2 (to_binary value) = Some (value mod 2 ^ 10)%Z)
  /\ (to_hex value = hex_fixed 10 (value mod 2 ^ 40)
      /\ String.length (to_hex value) = 10%nat
      /\ decode 16 (to_hex value) = Some (value mod 2 ^ 40)%Z).
Proof.
  intro Hneg.
  rewrite (to_binary_negative value Hneg), (to_hex_negative value Hneg).
  assert (Hb : ((2 ^ 10 + value) mod 2 ^ 10 = value mod 2 ^ 10)%Z).
  { rewrite Z.add_comm. rewrite <- (Z.mul_1_l (2 ^ 10)) at 1.
    apply Z.mod_add. lia. }
  assert (Hh : ((2 ^ 40 + value) mod 2 ^ 40 = value mod 2 ^ 40)%Z).
  { rewrite Z.add_comm. rewrite <- (Z.mul_1_l (2 ^ 40)) at 1.
    apply Z.mod_add. lia. }
  split; split.
  - pose proof (bits_fixed_low 10 10 (2 ^ 10 + value) ltac:(lia)) as E.
    change (Z.of_nat 10) with 10%Z in E. rewrite Hb in E.
    symmetry. exact E.
  - split; [apply bits_fixed_length |].
    rewrite decode_nonempty by discriminate.
    rewrite decode_from_bits_fixed. f_equal.
    change (2 ^ Z.of_nat 10)%Z with (2 ^ 10)%Z. lia.
  - pose proof (hex_fixed_low 10 10 (2 ^ 40 + value) ltac:(lia)) as E.
    change (16 ^ Z.of_nat 10)%Z with (2 ^ 40)%Z in E. rewrite Hh in E.
    symmetry. exact E.
  - split; [apply hex_fixed_length |].
    rewrite decode_nonempty by discriminate.
    rewrite decode_from_hex_fixed. f_equal.
    change (16 ^ Z.of_nat 10)%Z with (2 ^ 40)%Z. lia.
Qed.

Lemma negative_wraps_modulo_width_witness :
  (-1025 < 0)%Z
  /\ to_binary (-1025) = "1111111111"
  /\ decode 2 (to_binary (-1025)) = Some 1023%Z
  /\ decode 16 (to_hex (- 2 ^ 40 - 2)) = Some (2 ^ 40 - 2)%Z.
Proof.
  split; [lia |].
  destruct (negative_wraps_modulo_width (-1025) ltac:(lia))
    as ((Hb & _ & Hd) & _).
  destruct (negative_wraps_modulo_width (- 2 ^ 40 - 2) ltac:(lia))
    as (_ & (_ & _ & Hh)).
  split; [rewrite Hb; reflexivity |].
  split; [rewrite Hd; reflexivity | rewrite Hh; reflexivity].
Defined.

End ConvertNumbers.

(** ** Dicts used as counters *)

Section DictFacts.
Import Py Spec.
Context {K : Type} (same : K -> K -> bool).
Hypothesis same_sym : forall x y, same x y = same y x.
Hypothesis same_trans :
  forall x y z, same x y = true -> same y z = true -> same x z = true.

Lemma same_cong (x y k : K) : same x y = true -> same x k = same y k.
Proof.
  intro Hxy.
  destruct (same y k) eqn:Hy.
  - now apply same_trans with y.
  - destruct (same x k) eqn:Hx; [| reflexivity].
    rewrite <- Hy. symmetry. apply same_trans with x; [| exact Hx].
    now rewrite same_sym.
Qed.

Lemma dict_get_set {V} (d : list (K * V)) (x k : K) (v default : V) :
  dict_get same (dict_set same d x v) k default
  = if same x k then v else dict_get same d k default.
Proof.
  induction d as [| [k0 v0] rest IH]; [reflexivity |].
  cbn [dict_set dict_get].
  destruct (same k0 x) eqn:H0.
  - cbn [dict_get]. rewrite (same_cong k0 x k H0).
    destruct (same x k); reflexivity.
  - cbn [dict_get]. rewrite IH.
    destruct (same k0 k) eqn:H1; [| reflexivity].
    assert (Hx : same x k = false).
    { rewrite same_sym, <- (same_cong k0 k x H1). exact H0. }
    now rewrite Hx.
Qed.

Lemma tally_snoc (l : list K) (x : K) :
  tally same (l ++ [x])
  = dict_set same (tally same l) x (dict_get same (tally same l) x 0 + 1)%nat.
Proof. unfold tally. now rewrite fold_left_app. Qed.

Lemma occurrences_snoc (k x : K) (l : list K) :
  occurrences same k (l ++ [x])
  = (occurrences same k l + if same k x then 1 else 0)%nat.
Proof.
  unfold occurrences. rewrite filter_app, length_app. cbn [filter].
  destruct (same k x); reflexivity.
Qed.

Lemma occurrences_same (x k : K) (l : list K) :
  same x k = true -> occurrences same x l = occurrences same k l.
Proof.
  intro Hxk. unfold occurrences. f_equal.
  apply filter_ext. intro y. now apply same_cong.
Qed.

(** What the counter holds for a key is the number of its occurrences. *)
Lemma dict_get_tally (l : list K) (k : K) :
  dict_get same (tally same l) k 0%nat = occurrences same k l.
Proof.
  revert k. induction l as [| x l IH] using rev_ind; intro k; [reflexivity |].
  rewrite tally_snoc, dict_get_set, occurrences_snoc, (same_sym k x).
  destruct (same x k) eqn:Hxk.
  - rewrite IH. now rewrite (occurrences_same x k l Hxk).
  - rewrite IH. lia.
Qed.

Lemma keys_dict_set {V} (d : list (K * V)) (x : K) (v : V) :
  map fst (dict_set same d x v)
  = if existsb (fun k => same k x) (map fst d) then map fst d
    else (map fst d ++ [x])%list.
Proof.
  induction d as [| [k0 v0] rest IH]; [reflexivity |].
  cbn [dict_set map fst existsb].
  destruct (same k0 x) eqn:H0; [reflexivity |].
  cbn [map fst orb]. rewrite IH.
  destruct (existsb (fun k => same k x) (map fst rest)); reflexivity.
Qed.

Lemma distinct_incl (l : list K) (y : K) : In y (distinct same l) -> In y l.
Proof.
  revert y. induction l as [| a l IH]; intros y Hy; [exact Hy |].
  destruct Hy as [-> | Hy]; [now left | right].
  apply filter_In in Hy. now apply IH.
Qed.

Lemma existsb_distinct (l : list K) (x : K) :
  existsb (fun k => same k x) (distinct same l) = existsb (fun k => same k x) l.
Proof.
  destruct (existsb (fun k => same k x) l) eqn:E.
  - apply existsb_exists in E. destruct E as (y & Hy & Hyx).
    apply existsb_exists.
    revert y Hy Hyx. induction l as [| a l IH]; intros y Hy Hyx; [contradiction |].
    destruct Hy as [-> | Hy].
    + exists y. split; [now left | exact Hyx].
    + destruct (IH y Hy Hyx) as (y' & Hy' & Hy'x).
      destruct (same a y') eqn:Ha.
      * exists a. split; [now left |]. now apply same_trans with y'.
      * exists y'. split; [| exact Hy'x].
        right. apply filter_In. split; [exact Hy' | now rewrite Ha].
  - destruct (existsb (fun k => same k x) (distinct same l)) eqn:E'; [| reflexivity].
    apply existsb_exists in E'. destruct E' as (y & Hy & Hyx).
    rewrite <- E. symmetry. apply existsb_exists.
    exists y. split; [now apply distinct_incl | exact Hyx].
Qed.

Lemma distinct_snoc (l : list K) (x : K) :
  distinct same (l ++ [x])
  = if existsb (fun k => same k x) l then distinct same l
    else (distinct same l ++ [x])%list.
Proof.
  induction l as [| a l IH]; [reflexivity |].
  cbn [app distinct existsb]. rewrite IH.
  destruct (existsb (fun k => same k x) l) eqn:E.
  - now rewrite orb_true_r.
  - rewrite orb_false_r, filter_app. cbn [filter].
    destruct (same a x); [now rewrite app_nil_r | reflexivity].
Qed.

(** The keys of the counter are the distinct elements, as first met. *)
Lemma keys_tally (l : list K) : map fst (tally same l) = distinct same l.
Proof.
  induction l as [| x l IH] using rev_ind; [reflexivity |].
  rewrite tally_snoc, keys_dict_set, IH, existsb_distinct, distinct_snoc.
  reflexivity.
Qed.

Lemma distinct_apart (l : list K) :
  ForallOrdPairs (fun a b => same a b = false) (distinct same l).
Proof.
  induction l as [| a l IH]; [constructor |].
  cbn [distinct]. constructor.
  - apply Forall_forall. intros y Hy.
    apply filter_In in Hy. destruct Hy as (_ & Hy).
    now apply negb_true_iff in Hy.
  - clear -IH. induction IH as [| b ks Hb Hks IH']; [constructor |].
    cbn [filter]. destruct (negb (same a b)); [| exact IH'].
    constructor; [| exact IH'].
    apply Forall_forall. intros y Hy. apply filter_In in Hy.
    rewrite Forall_forall in Hb. now apply Hb.
Qed.

Lemma dict_get_entry {V} (d : list (K * V)) (k : K) (v default : V) :
  ForallOrdPairs (fun a b => same a b = false) (map fst d) ->
  same k k = true -> In (k, v) d -> dict_get same d k default = v.
Proof.
  intros Hapart Hrefl. induction d as [| [k0 v0] rest IH]; intro Hin; [contradiction |].
  cbn [map fst] in Hapart. inversion Hapart as [| ? ? Hhead Htail]; subst.
  cbn [dict_get]. destruct Hin as [Heq | Hin].
  - injection Heq as -> ->. now rewrite Hrefl.
  - rewrite Forall_forall in Hhead.
    rewrite (Hhead k) by (apply (in_map fst) in Hin; exact Hin).
    now apply IH.
Qed.

Lemma pairs_of_keys {V} (d : list (K * V)) (f : K -> V) :
  (forall k v, In (k, v) d -> v = f k) ->
  d = map (fun k => (k, f k)) (map fst d).
Proof.
  induction d as [| [k0 v0] rest IH]; intro Hf; [reflexivity |].
  cbn [map fst]. rewrite (Hf k0 v0) by now left.
  f_equal. apply IH. intros k v Hin. apply Hf. now right.
Qed.

(** The counter, in full: one entry per distinct element, in the order of
    first occurrence, with the number of its occurrences. *)
Lemma tally_spec (l : list K) :
  Forall (fun k => same k k = true) l ->
  tally same l = map (fun k => (k, occurrences same k l)) (distinct same l).
Proof.
  intro Hrefl. rewrite <- keys_tally. apply pairs_of_keys.
  intros k v Hin. rewrite <- dict_get_tally.
  symmetry. apply dict_get_entry; [| | exact Hin].
  - rewrite keys_tally. apply distinct_apart.
  - rewrite Forall_forall in Hrefl. apply Hrefl.
    apply distinct_incl. rewrite <- keys_tally.
    apply (in_map fst) in Hin. exact Hin.
Qed.


End DictFacts.

(** Every element counted adds one to the counts, whatever the keys. *)
Lemma sum_dict_set {K} (same : K -> K -> bool) (d : list (K * nat)) (x : K) :
  list_sum (map snd (Py.dict_set same d x (Py.dict_get same d x 0 + 1)%nat))
  = S (list_sum (map snd d)).
Proof.
  induction d as [| [k0 v0] rest IH]; [reflexivity |].
  cbn [Py.dict_set Py.dict_get].
  destruct (same k0 x); cbn [map snd]; cbn [list_sum fold_right].
  - fold (list_sum (map snd rest)). lia.
  - fold (list_sum (map snd (Py.dict_set same rest x (Py.dict_get same rest x 0 + 1)%nat))).
    fold (list_sum (map snd rest)). rewrite IH. lia.
Qed.

Lemma sum_tally {K} (same : K -> K -> bool) (l : list K) :
  list_sum (map snd (Spec.tally same l)) = List.length l.
Proof.
  induction l as [| x l IH] using rev_ind; [reflexivity |].
  unfold Spec.tally in *. rewrite fold_left_app. cbn [fold_left].
  rewrite sum_dict_set, IH, length_app. cbn [List.length]. lia.
Qed.

(** ** Processes *)

Section Processes.
Import Py.

Lemma for_each_print {A} (xs : list A) (g : A -> text) (w : world) :
  for_each xs (fun x => print (g x)) w
  = (Returned tt, {| console := (console w ++ map g xs)%list; disk := disk w |}).
Proof.
  revert w. induction xs as [| x xs IH]; intro w.
  - cbn. rewrite app_nil_r. now destruct w.
  - cbn [for_each]. unfold bind at 1. unfold print at 1.
    rewrite IH. cbn [console disk map]. unfold append.
    now rewrite <- app_assoc.
Qed.

End Processes.

(** ** Word count *)

Section WordCount.
Import Py wordCount Spec.
Context `{Runtime}.

Lemma join_concat (sep : string) (l : list string) :
  join sep l = String.concat sep l.
Proof.
  induction l as [| p rest IH]; [reflexivity |].
  cbn [join String.concat]. destruct rest; [reflexivity | now rewrite IH].
Qed.

Lemma split_nonempty (sep : ascii) (s : string) : split sep s <> [].
Proof.
  destruct s as [| c r]; cbn [split]; [discriminate |].
  destruct (Ascii.eqb c sep); [discriminate |].
  destruct (split sep r); discriminate.
Qed.

(** Splitting cuts at every separator and nowhere else: joining the parts
    with the separator gives the text back, and no part holds one. *)
Lemma split_join (sep : ascii) (s : string) :
  join (String sep "") (split sep s) = s.
Proof.
  induction s as [| c r IH]; [reflexivity |].
  cbn [split]. destruct (Ascii.eqb c sep) eqn:E.
  - apply Ascii.eqb_eq in E. subst c.
    pose proof (split_nonempty sep r) as Hne.
    cbn [join]. destruct (split sep r) as [| w ws]; [congruence |].
    cbn [append]. now rewrite IH.
  - pose proof (split_nonempty sep r) as Hne.
    destruct (split sep r) as [| w ws]; [congruence |].
    destruct ws as [| w' ws].
    + cbn [join] in *. now rewrite IH.
    + change (join (String sep "") (String c w :: w' :: ws))
        with (String c (join (String sep "") (w :: w' :: ws))).
      now rewrite IH.
Qed.

Lemma split_parts_free (sep : ascii) (s : string) :
  Forall (fun part => ~ In sep (list_ascii_of_string part)) (split sep s).
Proof.
  induction s as [| c r IH]; cbn [split].
  - constructor; [intros [] | constructor].
  - destruct (Ascii.eqb c sep) eqn:E.
    + constructor; [intros [] | exact IH].
    + apply Ascii.eqb_neq in E.
      destruct (split sep r) as [| w ws].
      * constructor; [| constructor]. cbn. intros [-> | []]. congruence.
      * inversion IH as [| ? ? Hw Hws]; subst.
        constructor; [| exact Hws].
        cbn. intros [-> | Hin]; [congruence | now apply Hw].
Qed.

Lemma normalize_token_reduced (part : string) :
  normalize_token part = reduced part.
Proof.
  unfold normalize_token, reduced.
  rewrite <- (join_concat "" (map lower (filter isalnum (list_ascii_of_string part)))).
  assert (G : forall chars cleaned,
             fold_left (fun cleaned ch =>
                          if isalnum ch then append cleaned (lower ch) else cleaned)
                       chars cleaned
             = (cleaned ++ map lower (filter isalnum chars))%list).
  { induction chars as [| ch chars IH]; intro cleaned; cbn [fold_left filter].
    - now rewrite app_nil_r.
    - rewrite IH. destruct (isalnum ch); [| reflexivity].
      unfold append. cbn [map]. now rewrite <- app_assoc. }
  now rewrite G.
Qed.

Lemma add_parts_tokens (words parts : list string) :
  add_parts words parts = (words ++ map token parts)%list.
Proof.
  unfold add_parts. revert words.
  induction parts as [| part parts IH]; intro words; cbn [fold_left map].
  - now rewrite app_nil_r.
  - rewrite normalize_token_reduced.
    assert (Hstep : (if String.eqb (reduced part) "" then append words "(blank)"
                     else append words (reduced part))
                    = append words (token part)).
    { unfold token. now destruct (String.eqb (reduced part) ""). }
    rewrite Hstep, IH. unfold append. now rewrite <- app_assoc.
Qed.

(** C5: a line that is not empty is cut at every single space and nowhere
    else, so two spaces in a row give an empty part; each part counts as
    its alphanumeric characters in lower case, or as "(blank)" when none is
    left; the line "a  b" gives "a", "(blank)", "b". *)
Theorem line_tokens (words errors : list string) (line_number : nat)
        (line : string) :
  strip isspace (rstrip (Ascii.eqb "010"%char) line) <> "" ->
  read_line (words, errors) (line_number, line)
  = ((words ++ map token (split " "%char (rstrip (Ascii.eqb "010"%char) line)))%list,
     errors)
  /\ join " " (split " "%char (rstrip (Ascii.eqb "010"%char) line))
     = rstrip (Ascii.eqb "010"%char) line
  /\ Forall (fun part => ~ In " "%char (list_ascii_of_string part))
            (split " "%char (rstrip (Ascii.eqb "010"%char) line))
  /\ @read_line Example.runtime ([], []) (1%nat, "a  b" ++ NL)
     = (["a"; "(blank)"; "b"], []).
Proof.
  intro Hline. repeat split.
  - unfold read_line.
    destruct (String.eqb (strip isspace (rstrip (Ascii.eqb "010"%char) line)) "")
      eqn:E.
    + apply String.eqb_eq in E. contradiction.
    + now rewrite add_parts_tokens.
  - apply split_join.
  - apply split_parts_free.
Qed.


(** *** Counting the words *)

Lemma string_eqb_trans (x y z : string) :
  String.eqb x y = true -> String.eqb y z = true -> String.eqb x z = true.
Proof. rewrite !String.eqb_eq. congruence. Qed.

Lemma count_frequencies_tally (words : list string) :
  count_frequencies words = tally String.eqb words.
Proof. reflexivity. Qed.

Lemma occurrences_count_occ (w : string) (words : list string) :
  occurrences String.eqb w words = count_occ string_dec words w.
Proof.
  unfold occurrences. induction words as [| x words IH]; [reflexivity |].
  cbn [filter count_occ]. destruct (string_dec x w) as [-> | Hne].
  - rewrite String.eqb_refl. cbn [List.length]. now rewrite IH.
  - destruct (String.eqb w x) eqn:E; [| exact IH].
    apply String.eqb_eq in E. congruence.
Qed.


Lemma distinct_In (words : list string) (w : string) :
  In w (distinct String.eqb words) <-> In w words.
Proof.
  split; [apply distinct_incl |].
  intro Hin.
  assert (E : existsb (fun k => String.eqb k w) (distinct String.eqb words) = true).
  { rewrite (existsb_distinct String.eqb string_eqb_trans).
    apply existsb_exists. exists w. split; [exact Hin | apply String.eqb_refl]. }
  apply existsb_exists in E. destruct E as (k & Hk & Hkw).
  apply String.eqb_eq in Hkw. now subst k.
Qed.

Lemma count_frequencies_spec (words : list string) :
  count_frequencies words
  = map (fun w => (w, count_occ string_dec words w)) (distinct String.eqb words).
Proof.
  rewrite count_frequencies_tally.
  rewrite (tally_spec String.eqb String.eqb_sym string_eqb_trans).
  - apply map_ext. intro w. now rewrite occurrences_count_occ.
  - apply Forall_forall. intros w _. apply String.eqb_refl.
Qed.

(** The rows follow the order of first occurrence, neither the alphabet
    nor the counts. *)
Example rows_in_first_seen_order :
  count_frequencies ["pear"; "apple"; "fig"; "apple"; "fig"; "fig"]
  = [("pear", 1%nat); ("apple", 2%nat); ("fig", 3%nat)].
Proof. reflexivity. Qed.


(** *** The whole run *)

Lemma main_reports (prog filename : string) (fs : filesystem)
      (lines words errors : list string) (elapsed : float) (w0 : world) :
  fs filename = Some lines ->
  fold_left read_line (enumerate1 lines) ([], []) = (words, errors) ->
  words <> [] ->
  main [prog; filename] fs elapsed w0
  = (Returned tt,
     {| console :=
          ((console w0 ++ map (fun err => [Lit ("ERROR: " ++ err)]) errors)
           ++ [build_report filename (count_frequencies words)
                            (List.length words) elapsed])%list;
        disk :=
          (RESULT_FILE,
           build_report filename (count_frequencies words)
                        (List.length words) elapsed)
            :: filter (fun f => negb (String.eqb (fst f) RESULT_FILE)) (disk w0) |}).
Proof.
  intros Hfile Hread Hwords.
  unfold main, read_words. rewrite Hfile.
  unfold bind at 1. unfold ret at 1. rewrite Hread.
  unfold bind at 1. rewrite for_each_print.
  destruct words as [| w words]; [congruence |].
  cbn [List.length Nat.eqb].
  unfold bind, print, save_results, write_file, append. cbn [console disk].
  reflexivity.
Qed.

Lemma unlines_app (l1 l2 : list text) :
  unlines (l1 ++ l2) = (unlines l1 ++ unlines l2)%list.
Proof. unfold unlines. now rewrite map_app, concat_app. Qed.

(** The text of the report, piece by piece: the heading, one row per
    entry of the table, the Grand Total and the elapsed time. *)
Lemma build_report_text (filename : string) (freq : list (string * nat))
      (total : nat) (elapsed : float) :
  build_report filename freq total elapsed
  = ((Lit ("Row Labels" ++ TAB ++ "Count of " ++ file_tag_of filename)
        :: Lit NL
        :: List.concat
             (map (fun entry =>
                     [Lit (fst entry ++ TAB ++ str_nat (snd entry)); Lit NL])
                  freq))
     ++ [ Lit ("Grand Total" ++ TAB ++ str_nat total); Lit NL;
          Lit "Elapsed time (s): "; Num elapsed; Lit NL ])%list.
Proof.
  unfold build_report. cbv zeta.
  rewrite app_assoc, unlines_app, unlines_app.
  f_equal. cbn [unlines map List.concat append app]. f_equal. f_equal.
  unfold unlines. rewrite map_map. f_equal.
  apply map_ext. intros [word count]. reflexivity.
Qed.

(** C10: the counts of the table add up to the number of words, so the
    Grand Total line of the report that is printed and saved, which comes
    after the rows and before the elapsed time, shows the sum of the
    counts of the rows. *)
Theorem grand_total_is_sum (words : list string) :
  list_sum (map snd (count_frequencies words)) = List.length words
  /\ forall (prog filename : string) (fs : filesystem) (lines errors : list string)
            (elapsed : float) (w0 : world),
       fs filename = Some lines ->
       fold_left read_line (enumerate1 lines) ([], []) = (words, errors) ->
       words <> [] ->
       exists w1 report,
         main [prog; filename] fs elapsed w0 = (Returned tt, w1)
         /\ In (RESULT_FILE, report) (disk w1)
         /\ last (console w1) [] = report
         /\ report
            = build_report filename (count_frequencies words)
                           (list_sum (map snd (count_frequencies words))) elapsed
         /\ report
            = ((Lit ("Row Labels" ++ TAB ++ "Count of " ++ file_tag_of filename)
                  :: Lit NL
                  :: List.concat
                       (map (fun entry =>
                               [Lit (fst entry ++ TAB ++ str_nat (snd entry));
                                Lit NL])
                            (count_frequencies words)))
               ++ [ Lit ("Grand Total" ++ TAB
                           ++ str_nat (list_sum (map snd (count_frequencies words))));
                    Lit NL;
                    Lit "Elapsed time (s): "; Num elapsed; Lit NL ])%list.
Proof.
  assert (Hsum : list_sum (map snd (count_frequencies words)) = List.length words).
  { rewrite count_frequencies_tally. apply sum_tally. }
  split; [exact Hsum |].
  intros prog filename fs lines errors elapsed w0 Hfile Hread Hwords.
  eexists. eexists.
  split; [now apply (main_reports prog filename fs lines words errors) |].
  rewrite Hsum. cbn [console disk]. split; [now left |].
  split; [now rewrite last_last |].
  split; [reflexivity | apply build_report_text].
Qed.

End WordCount.

Lemma line_tokens_witness :
  Py.strip (@isspace Example.runtime)
           (Py.rstrip (Ascii.eqb "010"%char) " Hi,  you") <> ""
  /\ @wordCount.read_line Example.runtime (["x"], []) (3%nat, " Hi,  you")
     = (["x"; "(blank)"; "hi"; "(blank)"; "you"], []).
Proof.
  split; [discriminate |].
  destruct (@line_tokens Example.runtime ["x"] [] 3%nat " Hi,  you"
              ltac:(discriminate)) as (Hread & _).
  rewrite Hread. reflexivity.
Defined.

Lemma grand_total_is_sum_witness :
  exists w1 report,
    @wordCount.main Example.runtime ["wordCount.py"; "words.txt"]
      (Example.one_file "words.txt"
         (Example.with_newlines ["Hello, world!"; "hello world"]))
      0.5%float Py.boot
    = (Py.Returned tt, w1)
    /\ In (wordCount.RESULT_FILE, report) (Py.disk w1)
    /\ last (Py.console w1) [] = report
    /\ report
       = [ Py.Lit ("Row Labels" ++ wordCount.TAB ++ "Count of words"); Py.Lit Py.NL;
           Py.Lit ("hello" ++ wordCount.TAB ++ "2"); Py.Lit Py.NL;
           Py.Lit ("world" ++ wordCount.TAB ++ "2"); Py.Lit Py.NL;
           Py.Lit ("Grand Total" ++ wordCount.TAB ++ "4"); Py.Lit Py.NL;
           Py.Lit "Elapsed time (s): "; Py.Num 0.5%float; Py.Lit Py.NL ].
Proof.
  destruct (@grand_total_is_sum Example.runtime ["hello"; "world"; "hello"; "world"])
    as (_ & Hrun).
  destruct (Hrun "wordCount.py" "words.txt"
                 (Example.one_file "words.txt"
                    (Example.with_newlines ["Hello, world!"; "hello world"]))
                 (Example.with_newlines ["Hello, world!"; "hello world"])
                 [] 0.5%float Py.boot eq_refl eq_refl ltac:(discriminate))
    as (w1 & report & Hmain & Hdisk & Hconsole & _ & Htext).
  exists w1, report.
  split; [exact Hmain |]. split; [exact Hdisk |]. split; [exact Hconsole |].
  rewrite Htext. reflexivity.
Defined.

(** ** Fatal conditions *)

Section Fatal.
Import Py Utility.
Context `{Runtime}.

Lemma no_valid_item (items : list convertNumbers.item) :
  List.length (filter convertNumbers.is_valid items) = 0%nat ->
  forallb (fun it => negb (convertNumbers.is_valid it)) items = true.
Proof.
  induction items as [| it items IH]; [reflexivity |].
  cbn [filter forallb]. destruct (convertNumbers.is_valid it); [discriminate |].
  intro Hlen. now rewrite IH.
Qed.

(** The three ways of a wrong argument count, as the [match] of [main]
    meets them. *)
Lemma wrong_arity (argv : list string) :
  List.length argv <> 2%nat ->
  argv = [] \/ (exists a, argv = [a]) \/ (exists a b c rest, argv = a :: b :: c :: rest).
Proof.
  destruct argv as [| a [| b [| c rest]]]; intro Hlen.
  - now left.
  - right. left. now exists a.
  - now contradiction Hlen.
  - right. right. now exists a, b, c, rest.
Qed.

Ltac by_arity Hlen :=
  destruct (wrong_arity _ Hlen) as [-> | [(a & ->) | (a & b & c & rest & ->)]];
  eexists; (split; [reflexivity | split; reflexivity]).

(** C8: when the argument count is wrong, the input file is missing or no
    valid entry is read, the run exits with status 1, which is not 0, and
    the files on disk are what they were: nothing is saved. Nothing but
    the fatal lines is printed either: the usage line, the line of the
    missing file, or the errors of the lines followed by the line that
    nothing was found; no report reaches the console. *)
Theorem fatal_runs_write_nothing (u : utility) (argv : list string)
        (fs : filesystem) (elapsed : float) (w0 : world) :
  (List.length argv <> 2%nat
   \/ exists prog filename,
        argv = [prog; filename]
        /\ (fs filename = None
            \/ exists lines, fs filename = Some lines /\ valid_entries u lines = 0%nat)) ->
  exists w1,
    run u argv fs elapsed w0 = (Exited 1, w1)
    /\ disk w1 = disk w0
    /\ console w1 = (console w0 ++ Laws.fatal_console u argv fs)%list.
Proof.
  intros [Hlen | (prog & filename & -> & [Hmissing | (lines & Hfile & Hnone)])].
  - destruct u; cbn [run];
      unfold computeStatistics.main, convertNumbers.main, wordCount.main,
        Laws.fatal_console;
      by_arity Hlen.
  - destruct u; cbn [run];
      unfold computeStatistics.main, convertNumbers.main, wordCount.main,
        computeStatistics.read_numbers, convertNumbers.read_items,
        wordCount.read_words, Laws.fatal_console;
      rewrite Hmissing; eexists; (split; [reflexivity | split; reflexivity]).
  - unfold Laws.fatal_console. rewrite Hfile.
    destruct u; cbn [run valid_entries Laws.errors_of Laws.nothing_found] in *.
    + unfold computeStatistics.main, computeStatistics.read_numbers.
      rewrite Hfile. unfold bind at 1. unfold ret at 1.
      destruct (fold_left computeStatistics.read_number (enumerate1 lines) ([], []))
        as (numbers, errors).
      cbn [fst snd] in *. unfold bind at 1. rewrite for_each_print.
      rewrite Hnone. cbn [Nat.eqb].
      eexists. split; [reflexivity |]. split; [reflexivity |].
      cbn [console]. unfold append, Laws.error_lines.
      now rewrite <- app_assoc.
    + unfold convertNumbers.main, convertNumbers.read_items.
      rewrite Hfile. unfold bind at 1. unfold ret at 1.
      destruct (fold_left convertNumbers.read_item (enumerate1 lines) ([], []))
        as (items, errors).
      cbn [fst snd] in *. unfold bind at 1. rewrite for_each_print.
      rewrite (no_valid_item items Hnone).
      eexists. split; [reflexivity |]. split; [reflexivity |].
      cbn [console]. unfold append, Laws.error_lines.
      now rewrite <- app_assoc.
    + unfold wordCount.main, wordCount.read_words.
      rewrite Hfile. unfold bind at 1. unfold ret at 1.
      destruct (fold_left wordCount.read_line (enumerate1 lines) ([], []))
        as (words, errors).
      cbn [fst snd] in *. unfold bind at 1. rewrite for_each_print.
      rewrite Hnone. cbn [Nat.eqb].
      eexists. split; [reflexivity |]. split; [reflexivity |].
      cbn [console]. unfold append, Laws.error_lines.
      now rewrite <- app_assoc.
Qed.

End Fatal.

(** The rows of the report for the items 8, -1 and abc. *)
Example conversion_rows :
  map convertNumbers.row
      (fst (fold_left (@convertNumbers.read_item Example.runtime)
                      (Py.enumerate1 (Example.with_newlines ["8"; "-1"; "abc"]))
                      ([], [])))
  = [ [Py.Lit "8 | 1000 | 8"];
      [Py.Lit "-1 | 1111111111 | FFFFFFFFFF"];
      [Py.Lit "abc | #VALUE! | #VALUE!"] ].
Proof. reflexivity. Qed.

(** The table for the lines "Hello, world!" and "hello world". *)
Example word_count_table :
  wordCount.count_frequencies
    (fst (fold_left (@wordCount.read_line Example.runtime)
                    (Py.enumerate1
                       (Example.with_newlines ["Hello, world!"; "hello world"]))
                    ([], [])))
  = [("hello", 2%nat); ("world", 2%nat)].
Proof. reflexivity. Qed.

Lemma fatal_runs_write_nothing_witness :
  exists w1,
    @Utility.run Example.runtime Utility.Statistics
      ["computeStatistics.py"; "data.txt"]
      (Example.one_file "data.txt" (Example.with_newlines ["abc"; ""; "1,5"]))
      0.5%float
      {| Py.console := []; Py.disk := [("StatisticsResults.txt", [Py.Lit "old"])] |}
    = (Py.Exited 1, w1)
    /\ Py.disk w1 = [("StatisticsResults.txt", [Py.Lit "old"])]
    /\ Py.console w1
       = [ [Py.Lit "ERROR: Line 1: invalid number 'abc' (skipped)"];
           [Py.Lit "ERROR: Line 2: empty line (skipped)"];
           [Py.Lit "ERROR: Line 3: invalid number '1,5' (skipped)"];
           [Py.Lit "ERROR: No valid numbers found in the input file."] ].
Proof.
  apply (@fatal_runs_write_nothing Example.runtime Utility.Statistics
           ["computeStatistics.py"; "data.txt"]
           (Example.one_file "data.txt" (Example.with_newlines ["abc"; ""; "1,5"]))
           0.5%float
           {| Py.console := []; Py.disk := [("StatisticsResults.txt", [Py.Lit "old"])] |}).
  right. exists "computeStatistics.py", "data.txt".
  split; [reflexivity |].
  right. exists (Example.with_newlines ["abc"; ""; "1,5"]).
  split; reflexivity.
Defined.

(** ** Statistics *)

Section Variance.
Import Py computeStatistics Spec.

Example variance_of_sample :
  variance [1; 2; 2; 4]%float 2.25%float = 1.5833333333333333%float.
Proof. reflexivity. Qed.

Example mean_of_sample : mean [1; 2; 2; 4]%float = 2.25%float.
Proof. reflexivity. Qed.

Lemma variance_total (values : list float) (avg total : float) :
  fold_left (fun total value =>
               let diff := (value - avg)%float in (total + diff * diff)%float)
            values total
  = fold_left PrimFloat.add (squared_deviations values avg) total.
Proof.
  revert total. induction values as [| v values IH]; intro total; [reflexivity |].
  cbn [fold_left squared_deviations map]. apply IH.
Qed.

(** C4: with two values or more, [variance] is the sum of the squared
    deviations from the given mean divided by n-1; with fewer than two it
    is 0.0 whatever the mean. *)
Theorem variance_sample (values : list float) (avg : float) :
  ((2 <= List.length values)%nat ->
   variance values avg
   = (float_sum (squared_deviations values avg)
      / float_of_nat (List.length values - 1))%float)
  /\ ((List.length values < 2)%nat -> variance values avg = 0%float).
Proof.
  unfold variance. split; intro Hn.
  - destruct (List.length values <? 2)%nat eqn:E.
    + apply Nat.ltb_lt in E. lia.
    + now rewrite variance_total.
  - apply Nat.ltb_lt in Hn. now rewrite Hn.
Qed.

Lemma variance_sample_witness :
  variance [1; 2; 2; 4]%float 2.25%float = (4.75 / 3)%float
  /\ variance [7.5]%float 3%float = 0%float.
Proof.
  destruct (variance_sample [1; 2; 2; 4]%float 2.25%float) as (Hmany & _).
  destruct (variance_sample [7.5]%float 3%float) as (_ & Hfew).
  split.
  - rewrite Hmany by (cbn; lia). reflexivity.
  - apply Hfew. cbn. lia.
Defined.

End Variance.

(** *** The report of the statistics *)

Section StatisticsReport.
Import Py computeStatistics Spec.
Context `{Runtime}.

Lemma statistics_main_reports (prog filename : string) (fs : filesystem)
      (lines : list string) (numbers : list float) (errors : list string)
      (elapsed_time : float) (w0 : world) :
  fs filename = Some lines ->
  fold_left read_number (enumerate1 lines) ([], []) = (numbers, errors) ->
  numbers <> [] ->
  let report :=
    results_text filename (List.length numbers) (List.length errors)
      (mean numbers) (median numbers)
      (match mode numbers with None => Lit "#N/A" | Some m => Num m end)
      (variance numbers (mean numbers))
      (standard_deviation (population_variance numbers))
      elapsed_time in
  main [prog; filename] fs elapsed_time w0
  = (Returned tt,
     {| console :=
          ((console w0 ++ map (fun error => [Lit ("ERROR: " ++ error)]) errors)
           ++ [report])%list;
        disk :=
          (RESULT_FILE, report)
            :: filter (fun f => negb (String.eqb (fst f) RESULT_FILE)) (disk w0) |}).
Proof.
  intros Hfile Hread Hnumbers report.
  unfold main, read_numbers. rewrite Hfile.
  unfold bind at 1. unfold ret at 1. rewrite Hread.
  unfold bind at 1. rewrite for_each_print.
  destruct numbers as [| x numbers]; [congruence |].
  cbn [List.length Nat.eqb].
  unfold bind, print, save_results, write_file, append. cbn [console disk].
  reflexivity.
Qed.

Lemma field_variance (filename : string) (n_valid n_errors : nat)
      (avg med : float) (m : option float) (var std elapsed_time : float) :
  field "Variance: "
        (results_text filename n_valid n_errors avg med
           (match m with None => Lit "#N/A" | Some x => Num x end)
           var std elapsed_time)
  = Some (Num var).
Proof. destruct m; reflexivity. Qed.

Lemma field_standard_deviation (filename : string) (n_valid n_errors : nat)
      (avg med : float) (m : option float) (var std elapsed_time : float) :
  field "Standard deviation: "
        (results_text filename n_valid n_errors avg med
           (match m with None => Lit "#N/A" | Some x => Num x end)
           var std elapsed_time)
  = Some (Num std).
Proof. destruct m; reflexivity. Qed.

(** C1, as the code has it: on a non-empty valid sample the value after
    "Variance: " in the saved report is the sample variance (the sum of
    squared deviations over n-1) and the value after "Standard deviation: "
    is the power one half of the population variance; for the sample
    1, 2, 2, 4 the sample variance is 1.5833333333333333, the population
    variance 1.1875 and its square root 1.0897247358851685. *)
Theorem report_variance_and_deviation (prog filename : string) (fs : filesystem)
        (lines : list string) (numbers : list float) (errors : list string)
        (elapsed_time : float) (w0 : world) :
  fs filename = Some lines ->
  fold_left read_number (enumerate1 lines) ([], []) = (numbers, errors) ->
  numbers <> [] ->
  (exists w1 report,
     main [prog; filename] fs elapsed_time w0 = (Returned tt, w1)
     /\ In (RESULT_FILE, report) (disk w1)
     /\ last (console w1) [] = report
     /\ field "Variance: " report = Some (Num (variance numbers (mean numbers)))
     /\ field "Standard deviation: " report
        = Some (Num (float_pow (population_variance numbers) 0.5%float)))
  /\ variance [1; 2; 2; 4]%float (mean [1; 2; 2; 4]%float)
     = 1.5833333333333333%float
  /\ population_variance [1; 2; 2; 4]%float = 1.1875%float
  /\ PrimFloat.sqrt 1.1875%float = 1.0897247358851685%float.
Proof.
  intros Hfile Hread Hnumbers.
  split; [| repeat split].
  pose proof (statistics_main_reports prog filename fs lines numbers errors
                elapsed_time w0 Hfile Hread Hnumbers) as Hmain.
  cbv zeta in Hmain.
  eexists. eexists. split; [exact Hmain |].
  cbn [console disk]. split; [now left |].
  split; [now rewrite last_last |].
  split; [apply field_variance | apply field_standard_deviation].
Qed.

End StatisticsReport.

(** The run of the statistics on the lines "1", "2", "2", "4". *)
Lemma report_variance_and_deviation_witness :
  exists w1 report,
    @computeStatistics.main Example.runtime ["computeStatistics.py"; "data.txt"]
      (Example.one_file "data.txt" (Example.with_newlines ["1"; "2"; "2"; "4"]))
      0.5%float Py.boot
    = (Py.Returned tt, w1)
    /\ In (computeStatistics.RESULT_FILE, report) (Py.disk w1)
    /\ last (Py.console w1) [] = report
    /\ Py.field "Variance: " report = Some (Py.Num 1.5833333333333333%float)
    /\ Py.field "Standard deviation: " report
       = Some (Py.Num 1.0897247358851685%float).
Proof.
  destruct (@report_variance_and_deviation Example.runtime
              "computeStatistics.py" "data.txt"
              (Example.one_file "data.txt" (Example.with_newlines ["1"; "2"; "2"; "4"]))
              (Example.with_newlines ["1"; "2"; "2"; "4"])
              [1; 2; 2; 4]%float [] 0.5%float Py.boot
              eq_refl eq_refl ltac:(discriminate))
    as ((w1 & report & Hmain & Hdisk & Hconsole & Hvar & Hstd) & _).
  exists w1, report.
  split; [exact Hmain |]. split; [exact Hdisk |]. split; [exact Hconsole |].
  split; [exact Hvar | exact Hstd].
Defined.

(** On that run the value after "Variance: " is 1.5833333333333333, which
    is not the population variance 1.1875. *)
Lemma reported_variance_not_population :
  exists w1 report,
    @computeStatistics.main Example.runtime ["computeStatistics.py"; "data.txt"]
      (Example.one_file "data.txt" (Example.with_newlines ["1"; "2"; "2"; "4"]))
      0.5%float Py.boot
    = (Py.Returned tt, w1)
    /\ Py.disk w1 = [(computeStatistics.RESULT_FILE, report)]
    /\ Py.field "Variance: " report = Some (Py.Num 1.5833333333333333%float)
    /\ Spec.population_variance [1; 2; 2; 4]%float = 1.1875%float
    /\ Py.field "Variance: " report
       <> Some (Py.Num (Spec.population_variance [1; 2; 2; 4]%float)).
Proof.
  eexists. eexists.
  split; [vm_compute; reflexivity |]. split; [reflexivity |].
  split; [reflexivity |]. split; [reflexivity |].
  intro Heq.
  apply (f_equal (fun o => match o with
                           | Some (Py.Num x) => PrimFloat.eqb x 1.1875%float
                           | _ => true
                           end)) in Heq.
  vm_compute in Heq. discriminate.
Qed.

(** ** The order of floats *)

Section FloatOrder.
Import Spec.

Ltac by_cases f1 f2 :=
  destruct f1 as [s1 | s1 | | s1 m1 e1]; destruct f2 as [s2 | s2 | | s2 m2 e2];
  try congruence;
  try destruct s1; try destruct s2;
  cbn [SFltb SFeqb SFleb SFcompare skey klt kle];
  unfold kle; cbn [klt];
  try change (Pos.compare_cont Eq m1 m2) with (Pos.compare m1 m2);
  try (destruct (Z.compare_spec e1 e2); try destruct (Pos.compare_spec m1 m2));
  cbn [CompOpp]; split;
  (let Hyp := fresh "Hyp" in
   intro Hyp; try discriminate; try reflexivity;
   try lia; try (injection Hyp; lia); try (exfalso; lia); try (subst; reflexivity)).

Lemma SFltb_key (f1 f2 : spec_float) :
  f1 <> S754_nan -> f2 <> S754_nan ->
  SFltb f1 f2 = true <-> klt (skey f1) (skey f2).
Proof. intros H1 H2. by_cases f1 f2. Qed.

Lemma SFeqb_key (f1 f2 : spec_float) :
  f1 <> S754_nan -> f2 <> S754_nan ->
  SFeqb f1 f2 = true <-> skey f1 = skey f2.
Proof. intros H1 H2. by_cases f1 f2. Qed.

Lemma SFleb_key (f1 f2 : spec_float) :
  f1 <> S754_nan -> f2 <> S754_nan ->
  SFleb f1 f2 = true <-> kle (skey f1) (skey f2).
Proof. intros H1 H2. by_cases f1 f2. Qed.

Lemma skey_inj (f1 f2 : spec_float) :
  f1 <> S754_nan -> f2 <> S754_nan -> skey f1 = skey f2 ->
  f1 = f2 \/ (exists s1 s2, f1 = S754_zero s1 /\ f2 = S754_zero s2).
Proof.
  intros H1 H2 Hk.
  destruct f1 as [s1 | s1 | | s1 m1 e1]; destruct f2 as [s2 | s2 | | s2 m2 e2];
    try congruence; try destruct s1; try destruct s2; cbn [skey] in Hk;
    try discriminate; try (now left);
    try (right; eexists; eexists; split; reflexivity).
  - left. injection Hk as He Hm. f_equal; lia.
  - left. injection Hk as He Hm. f_equal; lia.
Qed.

Lemma numeric_spec (x : float) : numeric x <-> Prim2SF x <> S754_nan.
Proof.
  unfold numeric, is_nan. rewrite eqb_spec.
  destruct (Prim2SF x) as [s | s | | s m e] eqn:E.
  - split; [discriminate | reflexivity].
  - split; [discriminate | intros _; destruct s; reflexivity].
  - split; [discriminate | congruence].
  - split; [discriminate | intros _].
    apply negb_false_iff. apply SFeqb_key; [discriminate | discriminate | reflexivity].
Qed.

Lemma is_zero_spec (x : float) :
  is_zero x = true <-> exists s, Prim2SF x = S754_zero s.
Proof.
  unfold is_zero. rewrite eqb_spec.
  change (Prim2SF zero) with (S754_zero false).
  destruct (Prim2SF x) as [s | s | | s m e] eqn:E; cbn.
  - split; [eauto | reflexivity].
  - split; [destruct s; discriminate | intros (s' & Hs); discriminate].
  - split; [discriminate | intros (s' & Hs); discriminate].
  - split; [destruct s; discriminate | intros (s' & Hs); discriminate].
Qed.

Lemma ltb_key (x y : float) :
  numeric x -> numeric y -> (x <? y)%float = true <-> klt (fkey x) (fkey y).
Proof.
  intros Hx Hy. rewrite ltb_spec.
  apply SFltb_key; now apply numeric_spec.
Qed.

Lemma leb_key (x y : float) :
  numeric x -> numeric y -> (x <=? y)%float = true <-> kle (fkey x) (fkey y).
Proof.
  intros Hx Hy. rewrite leb_spec.
  apply SFleb_key; now apply numeric_spec.
Qed.

Lemma eqb_key (x y : float) :
  numeric x -> numeric y -> (x =? y)%float = true <-> fkey x = fkey y.
Proof.
  intros Hx Hy. rewrite eqb_spec.
  apply SFeqb_key; now apply numeric_spec.
Qed.

(** Only numeric floats are equal to anything. *)
Lemma eqb_numeric (x y : float) :
  (x =? y)%float = true -> numeric x /\ numeric y.
Proof.
  rewrite eqb_spec, !numeric_spec. unfold SFeqb.
  destruct (Prim2SF x), (Prim2SF y); cbn; intro Hyp; try discriminate;
    split; discriminate.
Qed.

Lemma eqb_refl (x : float) : numeric x -> (x =? x)%float = true.
Proof. intro Hx. now apply eqb_key. Qed.

Lemma eqb_sym (x y : float) : (x =? y)%float = (y =? x)%float.
Proof.
  destruct (x =? y)%float eqn:Exy.
  - destruct (eqb_numeric x y Exy) as (Hx & Hy).
    symmetry. apply eqb_key; [assumption | assumption |].
    symmetry. now apply eqb_key.
  - destruct (y =? x)%float eqn:Eyx; [| reflexivity].
    destruct (eqb_numeric y x Eyx) as (Hy & Hx).
    rewrite <- Exy. apply eqb_key; [assumption | assumption |].
    symmetry. now apply eqb_key.
Qed.

Lemma eqb_trans (x y z : float) :
  (x =? y)%float = true -> (y =? z)%float = true -> (x =? z)%float = true.
Proof.
  intros Exy Eyz.
  destruct (eqb_numeric x y Exy) as (Hx & Hy).
  destruct (eqb_numeric y z Eyz) as (_ & Hz).
  apply eqb_key; [assumption | assumption |].
  transitivity (fkey y); now apply eqb_key.
Qed.

(** Floats at the same place are the same number. *)
Lemma fkey_same_value (x y : float) :
  numeric x -> numeric y -> fkey x = fkey y -> same_value x y.
Proof.
  intros Hx Hy Hk. apply numeric_spec in Hx, Hy.
  destruct (skey_inj _ _ Hx Hy Hk) as [Heq | (s1 & s2 & H1 & H2)].
  - left. now apply Prim2SF_inj.
  - right. split; apply is_zero_spec; eauto.
Qed.

Lemma same_value_eqb (x y : float) :
  numeric x -> same_value x y -> (x =? y)%float = true.
Proof.
  intros Hx [<- | (Zx & Zy)]; [now apply eqb_refl |].
  apply is_zero_spec in Zx, Zy. destruct Zx as (sx & Hsx), Zy as (sy & Hsy).
  rewrite eqb_spec, Hsx, Hsy. reflexivity.
Qed.

Lemma same_value_refl (x : float) : same_value x x.
Proof. now left. Qed.

(** Sums and halves do not tell the zeros apart. *)
Lemma same_value_add (a a' b b' : float) :
  same_value a a' -> same_value b b' -> same_value (a + b)%float (a' + b')%float.
Proof.
  intros [<- | (Za & Za')] [<- | (Zb & Zb')]; [now left | | |].
  - (* b and b' are zeros *)
    apply is_zero_spec in Zb, Zb'. destruct Zb as (s & Hs), Zb' as (s' & Hs').
    destruct (Prim2SF a) as [sa | sa | | sa ma ea] eqn:Ea.
    + right. split; apply is_zero_spec; rewrite add_spec, Ea, ?Hs, ?Hs';
        unfold SF64add, SFadd; destruct sa, s; try destruct s'; eauto.
    + left. apply Prim2SF_inj. rewrite !add_spec, Ea, Hs, Hs'. reflexivity.
    + left. apply Prim2SF_inj. rewrite !add_spec, Ea, Hs, Hs'. reflexivity.
    + left. apply Prim2SF_inj. rewrite !add_spec, Ea, Hs, Hs'. reflexivity.
  - (* a and a' are zeros *)
    apply is_zero_spec in Za, Za'. destruct Za as (s & Hs), Za' as (s' & Hs').
    destruct (Prim2SF b) as [sb | sb | | sb mb eb] eqn:Eb.
    + right. split; apply is_zero_spec; rewrite add_spec, Eb, ?Hs, ?Hs';
        unfold SF64add, SFadd; destruct sb, s; try destruct s'; eauto.
    + left. apply Prim2SF_inj. rewrite !add_spec, Eb, Hs, Hs'. reflexivity.
    + left. apply Prim2SF_inj. rewrite !add_spec, Eb, Hs, Hs'. reflexivity.
    + left. apply Prim2SF_inj. rewrite !add_spec, Eb, Hs, Hs'. reflexivity.
  - (* all four are zeros *)
    apply is_zero_spec in Za, Za', Zb, Zb'.
    destruct Za as (sa & Ha), Za' as (sa' & Ha'), Zb as (sb & Hb), Zb' as (sb' & Hb').
    right. split; apply is_zero_spec; rewrite add_spec, ?Ha, ?Ha', ?Hb, ?Hb';
      unfold SF64add, SFadd.
    + destruct sa, sb; eauto.
    + destruct sa', sb'; eauto.
Qed.

Lemma same_value_half (x x' : float) :
  same_value x x' -> same_value (x / 2)%float (x' / 2)%float.
Proof.
  intros [<- | (Zx & Zx')]; [now left |].
  apply is_zero_spec in Zx, Zx'. destruct Zx as (s & Hs), Zx' as (s' & Hs').
  right. split; apply is_zero_spec; rewrite div_spec, ?Hs, ?Hs';
    eexists; reflexivity.
Qed.

(** *** Rounding never makes a NaN *)

Lemma shr_1_nonneg (mrs : shr_record) :
  (0 <= shr_m mrs)%Z -> (0 <= shr_m (shr_1 mrs))%Z.
Proof.
  destruct mrs as [m r s]. destruct m as [| p | p]; cbn; intro Hm.
  - lia.
  - destruct p; cbn; lia.
  - lia.
Qed.

Lemma iter_pos_nonneg (p : positive) (mrs : shr_record) :
  (0 <= shr_m mrs)%Z -> (0 <= shr_m (iter_pos shr_1 p mrs))%Z.
Proof.
  revert mrs. induction p as [p IH | p IH |]; intros mrs Hm; cbn [iter_pos].
  - apply IH, IH. now apply shr_1_nonneg.
  - now apply IH, IH.
  - now apply shr_1_nonneg.
Qed.

Lemma shr_fexp_nonneg (prec emax m e : Z) (l : location) :
  (0 <= m)%Z -> (0 <= shr_m (fst (shr_fexp prec emax m e l)))%Z.
Proof.
  intro Hm. unfold shr_fexp, shr.
  assert (H0 : (0 <= shr_m (shr_record_of_loc m l))%Z).
  { destruct l as [| []]; exact Hm. }
  destruct (Z.sub _ e); cbn [fst]; try exact H0.
  now apply iter_pos_nonneg.
Qed.

Lemma round_nearest_even_nonneg (m : Z) (l : location) :
  (0 <= m)%Z -> (0 <= round_nearest_even m l)%Z.
Proof.
  intro Hm. unfold round_nearest_even.
  destruct l as [| []]; try exact Hm.
  - destruct (Z.even m); lia.
  - lia.
Qed.

Lemma binary_round_aux_not_nan (prec emax : Z) (sx : bool) (mx ex : Z)
      (lx : location) :
  (0 <= mx)%Z -> binary_round_aux prec emax sx mx ex lx <> S754_nan.
Proof.
  intro Hm. unfold binary_round_aux.
  pose proof (shr_fexp_nonneg prec emax mx ex lx Hm) as H1.
  destruct (shr_fexp prec emax mx ex lx) as [mrs' e']. cbn [fst] in H1.
  pose proof (shr_fexp_nonneg prec emax _ e' loc_Exact
                (round_nearest_even_nonneg _ (loc_of_shr_record mrs') H1)) as H2.
  destruct (shr_fexp prec emax _ e' loc_Exact) as [mrs'' e'']. cbn [fst] in H2.
  destruct (shr_m mrs'') as [| p | p]; [discriminate | | lia].
  destruct (Z.leb e'' _); discriminate.
Qed.

Lemma binary_normalize_not_nan (prec emax m e : Z) (sz : bool) :
  binary_normalize prec emax m e sz <> S754_nan.
Proof.
  unfold binary_normalize, binary_round.
  destruct m as [| p | p]; [discriminate | |];
    destruct (shl_align _ _ _) as [mz ez]; apply binary_round_aux_not_nan; lia.
Qed.

Lemma SFdiv_core_nonneg (prec emax : Z) (m1 : positive) (e1 : Z)
      (m2 : positive) (e2 : Z) :
  (0 <= fst (fst (SFdiv_core_binary prec emax (Zpos m1) e1 (Zpos m2) e2)))%Z.
Proof.
  unfold SFdiv_core_binary. cbv zeta.
  set (s := Z.sub _ _).
  set (m' := match s with Zpos _ => _ | Z0 => _ | Zneg _ => _ end).
  assert (Hm' : (0 <= m')%Z).
  { subst m'. destruct s; [lia | | lia]. apply Z.shiftl_nonneg. lia. }
  pose proof (Z.div_pos m' (Zpos m2) Hm' ltac:(lia)) as Hq.
  unfold Z.div in Hq.
  destruct (Z.div_eucl m' (Zpos m2)) as [q r]. exact Hq.
Qed.

Lemma finite_spec (x : float) :
  finite x <->
  (exists s, Prim2SF x = S754_zero s)
  \/ (exists s m e, Prim2SF x = S754_finite s m e).
Proof.
  unfold finite, is_finite, is_nan, is_infinity.
  rewrite !eqb_spec, abs_spec.
  change (Prim2SF infinity) with (S754_infinity false).
  destruct (Prim2SF x) as [s | s | | s m e] eqn:E.
  - split; [eauto | reflexivity].
  - split; [destruct s; discriminate |].
    intros [(s' & Hs) | (s' & m & e & Hs)]; discriminate.
  - split; [discriminate |].
    intros [(s' & Hs) | (s' & m & e & Hs)]; discriminate.
  - split; [eauto |]. intros _.
    assert (Hrefl : SFeqb (S754_finite s m e) (S754_finite s m e) = true)
      by (apply SFeqb_key; [discriminate | discriminate | reflexivity]).
    rewrite Hrefl. reflexivity.
Qed.

Lemma finite_numeric (x : float) : finite x -> numeric x.
Proof.
  intro Hx. apply numeric_spec. apply finite_spec in Hx.
  destruct Hx as [(s & ->) | (s & m & e & ->)]; discriminate.
Qed.

Lemma add_numeric (a b : float) : finite a -> finite b -> numeric (a + b)%float.
Proof.
  intros Ha Hb. apply numeric_spec. rewrite add_spec.
  apply finite_spec in Ha, Hb.
  destruct Ha as [(sa & ->) | (sa & ma & ea & ->)];
    destruct Hb as [(sb & ->) | (sb & mb & eb & ->)];
    unfold SF64add, SFadd.
  - destruct sa, sb; discriminate.
  - discriminate.
  - discriminate.
  - apply binary_normalize_not_nan.
Qed.

Lemma half_numeric (x : float) : numeric x -> numeric (x / 2)%float.
Proof.
  intro Hx. apply numeric_spec in Hx. apply numeric_spec. rewrite div_spec.
  change (Prim2SF 2) with (S754_finite false 4503599627370496 (-51)).
  destruct (Prim2SF x) as [s | s | | s m e]; unfold SF64div, SFdiv;
    [discriminate | discriminate | congruence |].
  pose proof (SFdiv_core_nonneg prec emax m e 4503599627370496 (-51)) as Hq.
  destruct (SFdiv_core_binary prec emax (Z.pos m) e (Z.pos 4503599627370496) (-51))
    as [[mz ez] lz].
  cbn [fst] in Hq. now apply binary_round_aux_not_nan.
Qed.

(** The order of the places is a strict total order. *)
Lemma kle_trans (k1 k2 k3 : Z * Z * Z) : kle k1 k2 -> kle k2 k3 -> kle k1 k3.
Proof.
  destruct k1 as [[a1 b1] c1], k2 as [[a2 b2] c2], k3 as [[a3 b3] c3].
  unfold kle, klt. lia.
Qed.

Lemma kle_antisym (k1 k2 : Z * Z * Z) : kle k1 k2 -> kle k2 k1 -> k1 = k2.
Proof.
  destruct k1 as [[a1 b1] c1], k2 as [[a2 b2] c2].
  unfold kle, klt. intros H1 H2.
  assert (a1 = a2 /\ b1 = b2 /\ c1 = c2) as (-> & -> & ->) by lia.
  reflexivity.
Qed.

Lemma klt_kle (k1 k2 : Z * Z * Z) : klt k1 k2 -> kle k1 k2.
Proof.
  destruct k1 as [[a1 b1] c1], k2 as [[a2 b2] c2].
  unfold kle, klt. lia.
Qed.

Lemma kle_refl (k : Z * Z * Z) : kle k k.
Proof. destruct k as [[a b] c]. unfold kle, klt. lia. Qed.

End FloatOrder.

(** ** Median *)

Section Median.
Import Py computeStatistics Spec.

Example median_of_sample : median [1; 2; 2; 4]%float = 2%float.
Proof. reflexivity. Qed.

Example median_odd : median [5; 1; 3]%float = 3%float.
Proof. reflexivity. Qed.

(** Two zeros of different signs: the medians are equal numbers, not the
    same float. *)
Example median_zeros :
  median [(-0)%float; 0%float; 0%float] = 0%float
  /\ median [0%float; (-0)%float; 0%float] = (-0)%float.
Proof. split; reflexivity. Qed.

(** With a NaN among the samples [<] is no order, and the result depends
    on the order of the input. *)
Example median_with_nan :
  median [nan; 1; 2]%float = 1%float /\ median [1; nan; 2]%float = nan.
Proof. split; reflexivity. Qed.

Lemma insert_perm (x : float) (l : list float) : Permutation (insert x l) (x :: l).
Proof.
  induction l as [| y l IH]; cbn [insert]; [reflexivity |].
  destruct (y <? x)%float; [| reflexivity].
  rewrite IH. apply perm_swap.
Qed.

Lemma sorted_perm (l : list float) : Permutation (sorted l) l.
Proof.
  induction l as [| x l IH]; [reflexivity |].
  cbn [sorted fold_right]. fold (sorted l).
  rewrite insert_perm. now constructor.
Qed.

Lemma sorted_length (l : list float) : List.length (sorted l) = List.length l.
Proof. apply Permutation_length, sorted_perm. Qed.

Lemma insert_sorted (x : float) (l : list float) :
  numeric x -> Forall numeric l ->
  StronglySorted fle l -> StronglySorted fle (insert x l).
Proof.
  intros Hx Hl Hs. induction Hs as [| y l Hs IH Hy]; cbn [insert].
  - constructor; constructor.
  - inversion Hl as [| ? ? Hny Hnl]; subst.
    destruct (y <? x)%float eqn:E.
    + constructor; [now apply IH |].
      rewrite insert_perm. constructor; [| exact Hy].
      apply klt_kle. now apply ltb_key.
    + assert (Hxy : fle x y).
      { unfold fle, kle. intro Hlt. apply ltb_key in Hlt; [| assumption | assumption].
        congruence. }
      constructor; [now constructor |].
      constructor; [exact Hxy |].
      rewrite Forall_forall in Hy |- *. intros z Hz.
      apply kle_trans with (fkey y); [exact Hxy | now apply Hy].
Qed.

Lemma sorted_sorted (l : list float) :
  Forall numeric l -> StronglySorted fle (sorted l).
Proof.
  induction l as [| x l IH]; intro Hl; [constructor |].
  inversion Hl as [| ? ? Hx Hl']; subst.
  cbn [sorted fold_right]. fold (sorted l).
  apply insert_sorted; [exact Hx | | now apply IH].
  now rewrite sorted_perm.
Qed.

Lemma sorted_keys (l : list float) :
  Forall numeric l -> StronglySorted kle (map fkey (sorted l)).
Proof.
  intro Hl. pose proof (sorted_sorted l Hl) as Hs.
  induction Hs as [| y s Hs IH Hy]; cbn [map]; constructor; [exact IH |].
  rewrite Forall_forall in Hy |- *. intros k Hk.
  apply in_map_iff in Hk. destruct Hk as (z & <- & Hz). now apply Hy.
Qed.

(** A list has one sorted arrangement of its places. *)
Lemma sorted_keys_unique (s s' : list (Z * Z * Z)) :
  StronglySorted kle s -> StronglySorted kle s' -> Permutation s s' -> s = s'.
Proof.
  intro Hs. revert s'. induction Hs as [| a t Hs IH Ha]; intros s' Hs' Hperm.
  - apply Permutation_nil in Hperm. now subst.
  - destruct Hs' as [| a' t' Hs' Ha'].
    + symmetry in Hperm. apply Permutation_nil in Hperm. discriminate.
    + assert (Heq : a = a').
      { apply kle_antisym.
        - assert (Hin : In a' (a :: t)).
          { apply Permutation_in with (a' :: t'); [now symmetry | now left]. }
          destruct Hin as [-> | Hin]; [apply kle_refl |].
          rewrite Forall_forall in Ha. now apply Ha.
        - assert (Hin : In a (a' :: t')).
          { apply Permutation_in with (a :: t); [exact Hperm | now left]. }
          destruct Hin as [-> | Hin]; [apply kle_refl |].
          rewrite Forall_forall in Ha'. now apply Ha'. }
      subst a'. f_equal. apply IH; [exact Hs' |].
      now apply Permutation_cons_inv with a.
Qed.

Lemma same_keys_same_values (s s' : list float) :
  Forall numeric s -> Forall numeric s' ->
  map fkey s = map fkey s' -> Forall2 same_value s s'.
Proof.
  intro Hs. revert s'. induction Hs as [| x s Hx Hs IH]; intros s' Hs' Hmap.
  - destruct s'; [constructor | discriminate].
  - destruct Hs' as [| x' s' Hx' Hs']; [discriminate |].
    cbn [map] in Hmap. injection Hmap as Hk Hmap.
    constructor; [now apply fkey_same_value | now apply IH].
Qed.

(** The sorted samples of a permutation are, place by place, the same
    numbers. *)
Lemma sorted_permutation (values values' : list float) :
  Forall numeric values -> Permutation values values' ->
  Forall2 same_value (sorted values) (sorted values').
Proof.
  intros Hnum Hperm.
  assert (Hnum' : Forall numeric values') by now rewrite <- Hperm.
  apply same_keys_same_values.
  - now rewrite sorted_perm.
  - now rewrite sorted_perm.
  - apply sorted_keys_unique; try now apply sorted_keys.
    apply Permutation_map.
    rewrite sorted_perm, Hperm. symmetry. apply sorted_perm.
Qed.

Lemma Forall2_nth_same (s s' : list float) (i : nat) :
  Forall2 same_value s s' -> same_value (nth i s nan) (nth i s' nan).
Proof.
  intro HF. revert i. induction HF as [| x x' s s' Hx HF IH]; intro i.
  - destruct i; apply same_value_refl.
  - destruct i; [exact Hx | apply IH].
Qed.

Lemma is_zero_cases (x : float) :
  is_zero x = true -> x = 0%float \/ x = (-0)%float.
Proof.
  intro Hz. apply is_zero_spec in Hz. destruct Hz as ([|] & Hs).
  - right. apply Prim2SF_inj. now rewrite Hs.
  - left. apply Prim2SF_inj. now rewrite Hs.
Qed.

(** Without a negative zero, the same numbers are the same floats. *)
Lemma same_values_identical (s s' : list float) :
  Forall2 same_value s s' ->
  Forall (fun x => x <> (-0)%float) s ->
  Forall (fun x => x <> (-0)%float) s' ->
  s = s'.
Proof.
  intro HF. induction HF as [| x x' s s' Hx HF IH]; intros Hs Hs'; [reflexivity |].
  inversion Hs as [| ? ? Hnx Hns]; inversion Hs' as [| ? ? Hnx' Hns']; subst.
  f_equal; [| now apply IH].
  destruct Hx as [Heq | (Zx & Zx')]; [exact Heq |].
  destruct (is_zero_cases x Zx) as [-> | ->]; [| congruence].
  destruct (is_zero_cases x' Zx') as [-> | ->]; [reflexivity | congruence].
Qed.

Lemma leb_fle (a b : float) :
  numeric a -> numeric b -> fle a b -> (a <=? b)%float = true.
Proof. intros Ha Hb Hab. now apply leb_key. Qed.

Lemma sorted_ascending (values : list float) :
  Forall numeric values ->
  StronglySorted (fun a b => (a <=? b)%float = true) (sorted values).
Proof.
  intro Hnum.
  assert (Hnum' : Forall numeric (sorted values)) by now rewrite sorted_perm.
  pose proof (sorted_sorted values Hnum) as Hs.
  induction Hs as [| y s Hs IH Hy]; constructor.
  - apply IH. now inversion Hnum'.
  - inversion Hnum' as [| ? ? Hny Hns]; subst.
    rewrite Forall_forall in Hy, Hns |- *. intros z Hz.
    apply leb_fle; [exact Hny | now apply Hns | now apply Hy].
Qed.

Lemma nth_sorted_in (values : list float) (i : nat) :
  (i < List.length values)%nat -> In (nth i (sorted values) nan) values.
Proof.
  intro Hi. apply Permutation_in with (sorted values); [apply sorted_perm |].
  apply nth_In. now rewrite sorted_length.
Qed.

(** The median of finite samples is a number. *)
Lemma median_numeric (values : list float) :
  values <> [] -> Forall finite values -> numeric (median values).
Proof.
  intros Hne Hfin. rewrite Forall_forall in Hfin.
  assert (Hpos : (0 < List.length values)%nat).
  { destruct values; [congruence | cbn; lia]. }
  assert (Hmid : (List.length values / 2 < List.length values)%nat)
    by (apply Nat.div_lt; lia).
  unfold median. cbv zeta. rewrite sorted_length.
  destruct (List.length values mod 2 =? 1)%nat.
  - apply finite_numeric, Hfin. now apply nth_sorted_in.
  - apply half_numeric, add_numeric; apply Hfin, nth_sorted_in; lia.
Qed.

(** C6: the median of numeric samples does not depend on their order: a
    permutation of the samples has the same median. It is the same number
    ([==] holds on finite samples) and the same float unless a sample is
    -0.0, when a zero median may change its sign. The median is taken from
    the samples sorted in ascending order: the middle one when their number
    is odd, the average of the two central ones when it is even. *)
Theorem median_permutation (values values' : list float) :
  values <> [] ->
  Forall numeric values ->
  Permutation values values' ->
  same_value (median values) (median values')
  /\ (Forall finite values -> (median values =? median values')%float = true)
  /\ (Forall (fun x => x <> (-0)%float) values -> median values = median values')
  /\ Permutation (sorted values) values
  /\ StronglySorted (fun a b => (a <=? b)%float = true) (sorted values)
  /\ median values
     = if Nat.odd (List.length values)
       then nth (List.length values / 2) (sorted values) nan
       else ((nth (List.length values / 2 - 1) (sorted values) nan
              + nth (List.length values / 2) (sorted values) nan) / 2)%float.
Proof.
  intros Hne Hnum Hperm.
  assert (Hsame : same_value (median values) (median values')).
  { pose proof (sorted_permutation values values' Hnum Hperm) as HF.
    unfold median. cbv zeta.
    rewrite !sorted_length, <- (Permutation_length Hperm).
    destruct (List.length values mod 2 =? 1)%nat.
    - now apply Forall2_nth_same.
    - apply same_value_half. apply same_value_add; now apply Forall2_nth_same. }
  split; [exact Hsame |].
  split; [intro Hfin; apply same_value_eqb; [now apply median_numeric | exact Hsame] |].
  split.
  { intro Hzero.
    assert (Heq : sorted values = sorted values').
    { apply same_values_identical.
      - now apply sorted_permutation.
      - now rewrite sorted_perm.
      - now rewrite sorted_perm, <- Hperm. }
    unfold median. now rewrite Heq. }
  split; [apply sorted_perm |].
  split; [now apply sorted_ascending |].
  unfold median. cbv zeta. rewrite sorted_length.
  replace (List.length values mod 2 =? 1)%nat with (Nat.odd (List.length values));
    [reflexivity |].
  rewrite <- Nat.bit0_mod, Nat.bit0_odd.
  destruct (Nat.odd (List.length values)); reflexivity.
Qed.

Lemma median_permutation_witness :
  [3; 1; 2; 8]%float <> []
  /\ Forall numeric [3; 1; 2; 8]%float
  /\ Permutation [3; 1; 2; 8]%float [1; 3; 2; 8]%float
  /\ same_value (median [3; 1; 2; 8]%float) (median [1; 3; 2; 8]%float)
  /\ median [3; 1; 2; 8]%float = 2.5%float.
Proof.
  assert (Hne : [3; 1; 2; 8]%float <> []) by discriminate.
  assert (Hnum : Forall numeric [3; 1; 2; 8]%float) by (repeat constructor).
  assert (Hperm : Permutation [3; 1; 2; 8]%float [1; 3; 2; 8]%float)
    by apply perm_swap.
  split; [exact Hne |]. split; [exact Hnum |]. split; [exact Hperm |].
  split; [| reflexivity].
  exact (proj1 (median_permutation [3; 1; 2; 8]%float [1; 3; 2; 8]%float
                  Hne Hnum Hperm)).
Defined.

End Median.

(** ** Mode *)

Section Mode.
Import Py computeStatistics Spec.

Example mode_tie : mode [1; 1; 2; 2]%float = Some 2%float.
Proof. reflexivity. Qed.

Example mode_tie_first_seen_larger : mode [7; 3; 7; 3; 5]%float = Some 7%float.
Proof. reflexivity. Qed.

Example mode_all_distinct : mode [4; 1; 3]%float = None.
Proof. reflexivity. Qed.

Lemma frequencies_spec (values : list float) :
  Forall numeric values ->
  frequencies values
  = map (fun k => (k, occurrences PrimFloat.eqb k values))
        (distinct PrimFloat.eqb values).
Proof.
  intro Hnum. change (frequencies values) with (tally PrimFloat.eqb values).
  apply (tally_spec PrimFloat.eqb eqb_sym eqb_trans).
  rewrite Forall_forall in Hnum |- *. intros k Hk. now apply eqb_refl, Hnum.
Qed.

Lemma list_max_ge (l : list nat) (x : nat) : In x l -> (x <= list_max l)%nat.
Proof.
  intro Hin. pose proof (proj1 (list_max_le l (list_max l)) (Nat.le_refl _)) as HF.
  rewrite Forall_forall in HF. now apply HF.
Qed.

Lemma list_max_attained (l : list nat) : l <> [] -> In (list_max l) l.
Proof.
  induction l as [| a l IH]; [congruence |]. intros _.
  cbn [list_max fold_right]. fold (list_max l).
  destruct l as [| b l].
  - left. cbn. lia.
  - destruct (Nat.max_spec a (list_max (b :: l))) as [(_ & ->) | (_ & ->)].
    + right. apply IH. discriminate.
    + now left.
Qed.

(** Every value has among the keys one that is equal to it. *)
Lemma distinct_represents (values : list float) (v : float) :
  numeric v -> In v values ->
  exists k, In k (distinct PrimFloat.eqb values) /\ (k =? v)%float = true.
Proof.
  intros Hv Hin.
  assert (E : existsb (fun k => (k =? v)%float) (distinct PrimFloat.eqb values) = true).
  { rewrite (existsb_distinct PrimFloat.eqb eqb_trans).
    apply existsb_exists. exists v. split; [exact Hin | now apply eqb_refl]. }
  apply existsb_exists in E. exact E.
Qed.

Lemma max_count_spec (values : list float) :
  Forall numeric values ->
  list_max (map snd (frequencies values)) = max_frequency values.
Proof.
  intro Hnum. rewrite frequencies_spec by exact Hnum.
  rewrite map_map. cbn [snd]. unfold max_frequency.
  rewrite Forall_forall in Hnum.
  apply Nat.le_antisymm; apply list_max_le; apply Forall_forall; intros c Hc;
    apply in_map_iff in Hc; destruct Hc as (x & <- & Hx).
  - apply list_max_ge. apply in_map_iff. exists x. split; [reflexivity |].
    now apply (distinct_incl PrimFloat.eqb).
  - destruct (distinct_represents values x (Hnum x Hx) Hx) as (k & Hk & Hkx).
    rewrite <- (occurrences_same PrimFloat.eqb eqb_sym eqb_trans k x values Hkx).
    apply list_max_ge. apply in_map_iff. now exists k.
Qed.

Lemma pick_fold (values : list float) (m : nat) (keys seen : list float)
      (best : option float) :
  Forall numeric keys -> Forall numeric seen ->
  picked values m seen best ->
  picked values m (seen ++ keys)
         (fold_left (pick m)
                    (map (fun k => (k, occurrences PrimFloat.eqb k values)) keys)
                    best).
Proof.
  intro Hkeys. revert seen best.
  induction Hkeys as [| k keys Hk Hkeys IH]; intros seen best Hseen Hbest.
  - cbn [map fold_left]. now rewrite app_nil_r.
  - cbn [map fold_left].
    replace (seen ++ k :: keys)%list with ((seen ++ [k]) ++ keys)%list
      by (now rewrite <- app_assoc).
    apply IH; [apply Forall_app; split; [exact Hseen | now constructor] |].
    unfold pick.
    destruct (occurrences PrimFloat.eqb k values =? m)%nat eqn:Ec.
    + apply Nat.eqb_eq in Ec.
      destruct best as [b |]; cbn [picked] in *.
      * destruct Hbest as (Hb & Hcount & Hmost).
        assert (Hnb : numeric b).
        { rewrite Forall_forall in Hseen. now apply Hseen. }
        destruct (b <? k)%float eqn:Elt; cbn [picked].
        -- apply ltb_key in Elt; [| assumption | assumption].
           split; [apply in_or_app; right; now left |].
           split; [exact Ec |].
           intros k' Hk' Hc'. apply in_app_or in Hk'.
           destruct Hk' as [Hk' | [<- | []]]; [| apply kle_refl].
           apply kle_trans with (fkey b); [now apply Hmost | now apply klt_kle].
        -- split; [apply in_or_app; now left |].
           split; [exact Hcount |].
           intros k' Hk' Hc'. apply in_app_or in Hk'.
           destruct Hk' as [Hk' | [<- | []]]; [now apply Hmost |].
           unfold fle, kle. intro Hlt.
           apply ltb_key in Hlt; [congruence | assumption | assumption].
      * split; [apply in_or_app; right; now left |].
        split; [exact Ec |].
        intros k' Hk' Hc'. apply in_app_or in Hk'.
        destruct Hk' as [Hk' | [<- | []]]; [| apply kle_refl].
        now contradiction (Hbest k' Hk').
    + apply Nat.eqb_neq in Ec.
      destruct best as [b |]; cbn [picked] in *.
      * destruct Hbest as (Hb & Hcount & Hmost).
        split; [apply in_or_app; now left |].
        split; [exact Hcount |].
        intros k' Hk' Hc'. apply in_app_or in Hk'.
        destruct Hk' as [Hk' | [<- | []]]; [now apply Hmost | contradiction].
      * intros k' Hk'. apply in_app_or in Hk'.
        destruct Hk' as [Hk' | [<- | []]]; [now apply Hbest | exact Ec].
Qed.

(** C3: on numeric samples, when no value occurs more than once [mode]
    is None, which the report shows as "#N/A"; otherwise it is the largest
    of the values that occur most often; 1, 1, 2, 2 has mode 2. *)
Theorem mode_largest_most_frequent (values : list float) :
  values <> [] ->
  Forall numeric values ->
  (max_frequency values = 1%nat -> mode values = None)
  /\ (max_frequency values <> 1%nat ->
      exists best,
        mode values = Some best
        /\ In best values
        /\ occurrences PrimFloat.eqb best values = max_frequency values
        /\ forall v, In v values ->
                     occurrences PrimFloat.eqb v values = max_frequency values ->
                     (v <=? best)%float = true)
  /\ (forall (filename : string) (n_valid n_errors : nat)
             (avg med var std elapsed_time : float),
         mode values = None ->
         field "Mode: "
               (results_text filename n_valid n_errors avg med
                  (match mode values with None => Lit "#N/A" | Some m => Num m end)
                  var std elapsed_time)
         = Some (Lit "#N/A"))
  /\ mode [1; 1; 2; 2]%float = Some 2%float.
Proof.
  intros Hne Hnum.
  pose proof (max_count_spec values Hnum) as Hmax.
  split; [| split; [| split; [| reflexivity]]].
  - intro Hone. unfold mode. cbv zeta. rewrite Hmax, Hone. reflexivity.
  - intro Hmany. unfold mode. cbv zeta. rewrite Hmax.
    destruct (max_frequency values =? 1)%nat eqn:E;
      [apply Nat.eqb_eq in E; contradiction |].
    rewrite frequencies_spec by exact Hnum.
    assert (Hkeys : Forall numeric (distinct PrimFloat.eqb values)).
    { rewrite Forall_forall in Hnum |- *. intros k Hk.
      now apply Hnum, (distinct_incl PrimFloat.eqb). }
    pose proof (pick_fold values (max_frequency values)
                  (distinct PrimFloat.eqb values) [] None Hkeys
                  (Forall_nil _) (fun k (Hk : In k []) => match Hk with end))
      as Hpicked.
    cbn [app] in Hpicked.
    destruct (fold_left (pick (max_frequency values))
                (map (fun k => (k, occurrences PrimFloat.eqb k values))
                   (distinct PrimFloat.eqb values)) None) as [best |];
      cbn [picked] in Hpicked.
    + destruct Hpicked as (Hbest & Hcount & Hmost).
      exists best. split; [reflexivity |].
      split; [now apply (distinct_incl PrimFloat.eqb) |].
      split; [exact Hcount |].
      intros v Hv Hcv.
      assert (Hnv : numeric v) by (rewrite Forall_forall in Hnum; now apply Hnum).
      destruct (distinct_represents values v Hnv Hv) as (k & Hk & Hkv).
      rewrite Forall_forall in Hkeys.
      apply leb_key; [exact Hnv | now apply Hkeys |].
      replace (fkey v) with (fkey k)
        by (apply eqb_key; [now apply Hkeys | exact Hnv | exact Hkv]).
      apply Hmost; [exact Hk |].
      now rewrite (occurrences_same PrimFloat.eqb eqb_sym eqb_trans k v values Hkv).
    + exfalso.
      assert (Hin : In (max_frequency values)
                       (map (fun v => occurrences PrimFloat.eqb v values) values)).
      { apply list_max_attained. destruct values; [congruence | discriminate]. }
      apply in_map_iff in Hin. destruct Hin as (v & Hcv & Hv).
      assert (Hnv : numeric v) by (rewrite Forall_forall in Hnum; now apply Hnum).
      destruct (distinct_represents values v Hnv Hv) as (k & Hk & Hkv).
      apply (Hpicked k Hk).
      now rewrite (occurrences_same PrimFloat.eqb eqb_sym eqb_trans k v values Hkv).
  - intros filename n_valid n_errors avg med var std elapsed_time ->. reflexivity.
Qed.

Lemma mode_largest_most_frequent_witness :
  [3; 3; 5; 5; 4]%float <> []
  /\ Forall numeric [3; 3; 5; 5; 4]%float
  /\ max_frequency [3; 3; 5; 5; 4]%float <> 1%nat
  /\ exists best,
       mode [3; 3; 5; 5; 4]%float = Some best
       /\ In best [3; 3; 5; 5; 4]%float
       /\ occurrences PrimFloat.eqb best [3; 3; 5; 5; 4]%float
          = max_frequency [3; 3; 5; 5; 4]%float
       /\ forall v, In v [3; 3; 5; 5; 4]%float ->
                    occurrences PrimFloat.eqb v [3; 3; 5; 5; 4]%float
                    = max_frequency [3; 3; 5; 5; 4]%float ->
                    (v <=? best)%float = true.
Proof.
  assert (Hne : [3; 3; 5; 5; 4]%float <> []) by discriminate.
  assert (Hnum : Forall numeric [3; 3; 5; 5; 4]%float) by (repeat constructor).
  assert (Hmany : max_frequency [3; 3; 5; 5; 4]%float <> 1%nat)
    by (vm_compute; discriminate).
  split; [exact Hne |]. split; [exact Hnum |]. split; [exact Hmany |].
  exact (proj1 (proj2 (mode_largest_most_frequent [3; 3; 5; 5; 4]%float Hne Hnum))
               Hmany).
Defined.

End Mode.

(** * Further properties *)

(** ** Base conversion: digits and their values *)

Section Digits.
Import Py convertNumbers Encoding Spec.

Lemma length_append (s1 s2 : string) :
  String.length (s1 ++ s2) = (String.length s1 + String.length s2)%nat.
Proof. induction s1 as [| c r IH]; cbn; [reflexivity | now rewrite IH]. Qed.

Lemma digit_value_range (base : Z) (c : ascii) (d : Z) :
  digit_value base c = Some d -> (0 <= d < base)%Z.
Proof.
  unfold digit_value.
  destruct (String.index 0 (String c "") HEX_DIGITS) as [i |]; [| discriminate].
  destruct (Z.of_nat i <? base)%Z eqn:E; [| discriminate].
  intro Heq. injection Heq as <-. apply Z.ltb_lt in E. lia.
Qed.

Lemma digit_value_inj (base : Z) (c1 c2 : ascii) (d : Z) :
  digit_value base c1 = Some d -> digit_value base c2 = Some d -> c1 = c2.
Proof.
  unfold digit_value.
  destruct (String.index 0 (String c1 "") HEX_DIGITS) as [i1 |] eqn:E1;
    [| discriminate].
  destruct (String.index 0 (String c2 "") HEX_DIGITS) as [i2 |] eqn:E2;
    [| discriminate].
  destruct (Z.of_nat i1 <? base)%Z; [| discriminate].
  destruct (Z.of_nat i2 <? base)%Z; [| discriminate].
  intros H1 H2. injection H1 as <-. injection H2 as H2.
  apply Nat2Z.inj in H2. subst i2.
  apply index_correct1 in E1, E2. cbn [String.length] in E1, E2.
  rewrite E1 in E2. now injection E2.
Qed.

(** What is read after [a] is [a] shifted by the length of the text, plus
    what the text alone denotes, which is below the power of the length. *)
Lemma decode_from_shift (base : Z) (s : string) :
  (1 <= base)%Z ->
  forall a,
    match decode_from base 0 s with
    | Some v =>
        (0 <= v < base ^ Z.of_nat (String.length s))%Z
        /\ decode_from base a s
           = Some (a * base ^ Z.of_nat (String.length s) + v)%Z
    | None => decode_from base a s = None
    end.
Proof.
  intro Hbase. induction s as [| c r IH].
  - intro a. cbn. split; [lia | f_equal; lia].
  - intro a. cbn [decode_from String.length].
    destruct (digit_value base c) as [d |] eqn:Ed; [| reflexivity].
    pose proof (digit_value_range base c d Ed) as Hd.
    pose proof (IH (0 * base + d)%Z) as IH0.
    pose proof (IH (a * base + d)%Z) as IHa.
    destruct (decode_from base 0 r) as [v |].
    + destruct IH0 as (Hv & ->), IHa as (_ & ->).
      rewrite Nat2Z.inj_succ, Z.pow_succ_r by lia.
      split; [nia | f_equal; ring].
    + now rewrite IH0, IHa.
Qed.

(** Texts of one length that denote one number are the same text. *)
Lemma decode_from_inj (base : Z) (s1 s2 : string) (v : Z) :
  (1 <= base)%Z ->
  String.length s1 = String.length s2 ->
  decode_from base 0 s1 = Some v -> decode_from base 0 s2 = Some v -> s1 = s2.
Proof.
  intro Hbase. revert s2 v.
  induction s1 as [| c1 r1 IH]; intros s2 v Hlen H1 H2.
  - destruct s2; [reflexivity | discriminate].
  - destruct s2 as [| c2 r2]; [discriminate |].
    cbn [String.length] in Hlen. injection Hlen as Hlen.
    cbn [decode_from] in H1, H2.
    destruct (digit_value base c1) as [d1 |] eqn:E1; [| discriminate].
    destruct (digit_value base c2) as [d2 |] eqn:E2; [| discriminate].
    pose proof (digit_value_range base c1 d1 E1) as Hd1.
    pose proof (digit_value_range base c2 d2 E2) as Hd2.
    pose proof (decode_from_shift base r1 Hbase (0 * base + d1)%Z) as S1.
    pose proof (decode_from_shift base r2 Hbase (0 * base + d2)%Z) as S2.
    destruct (decode_from base 0 r1) as [v1 |] eqn:D1; [| congruence].
    destruct (decode_from base 0 r2) as [v2 |] eqn:D2; [| congruence].
    destruct S1 as (Hv1 & S1), S2 as (Hv2 & S2).
    rewrite S1 in H1. rewrite S2 in H2. rewrite <- Hlen in *.
    injection H1 as H1. injection H2 as H2.
    set (B := (base ^ Z.of_nat (String.length r1))%Z) in *.
    assert (Hdiff : ((d1 - d2) * B = v2 - v1)%Z) by lia.
    assert (Hd : d1 = d2) by nia.
    subst d2. assert (Hv : v1 = v2) by lia. subst v2.
    f_equal.
    + now apply (digit_value_inj base c1 c2 d1).
    + now apply (IH r2 v1).
Qed.

(** With fuel for [n] turns the loop appends the shortest text that
    denotes [n]. *)
Lemma digits_loop_shape (base : Z) (digit : Z -> string) :
  (2 <= base)%Z -> renders base digit ->
  forall (fuel : nat) (n : Z) (digits : list string),
    (0 <= n <= Z.of_nat fuel)%Z ->
    exists r,
      join "" (rev (digits_loop base digit fuel n digits))
      = r ++ join "" (rev digits)
      /\ decode_from base 0 r = Some n
      /\ (n = 0%Z -> r = "")
      /\ (0 < n ->
          base ^ (Z.of_nat (String.length r) - 1) <= n
          < base ^ Z.of_nat (String.length r))%Z.
Proof.
  intros Hbase Hdigit.
  induction fuel as [| fuel IH]; intros n digits Hn.
  - exists "". assert (n = 0%Z) as -> by lia.
    repeat split; lia.
  - cbn [digits_loop]. destruct (0 <? n)%Z eqn:Hpos.
    + apply Z.ltb_lt in Hpos.
      assert (Hq : (0 <= n / base <= Z.of_nat fuel)%Z).
      { split; [apply Z.div_pos; lia |].
        assert (n / base < n)%Z by (apply Z.div_lt; lia). lia. }
      destruct (IH (n / base)%Z (append digits (digit (n mod base)%Z)) Hq)
        as (r' & Hjoin & Hdec & Hzero & Hsize).
      destruct (Hdigit (n mod base)%Z) as (c & Hc & Hv);
        [apply Z.mod_pos_bound; lia |].
      pose proof (Z.div_mod n base ltac:(lia)) as Hdm.
      pose proof (Z.mod_pos_bound n base ltac:(lia)) as Hm.
      exists (r' ++ String c ""). split; [| split; [| split]].
      * rewrite Hjoin. unfold append. rewrite rev_app_distr. cbn [rev app].
        rewrite join_empty_cons, Hc, append_assoc. reflexivity.
      * rewrite decode_from_app, Hdec. cbn [decode_from]. rewrite Hv.
        f_equal. lia.
      * lia.
      * intros _. rewrite length_append. cbn [String.length].
        replace (Z.of_nat (String.length r' + 1))
          with (Z.succ (Z.of_nat (String.length r'))) by lia.
        rewrite Z.pow_succ_r by lia.
        replace (Z.succ (Z.of_nat (String.length r')) - 1)%Z
          with (Z.of_nat (String.length r')) by lia.
        destruct (Z.eq_dec (n / base) 0) as [Hq0 | Hq0].
        -- rewrite (Hzero Hq0). cbn [String.length Z.of_nat].
           rewrite Z.pow_0_r. lia.
        -- assert (Hqpos : (0 < n / base)%Z) by lia.
           specialize (Hsize Hqpos).
           destruct (String.length r') as [| k].
           ++ cbn [Z.of_nat] in Hsize. rewrite Z.pow_0_r in Hsize. lia.
           ++ replace (Z.of_nat (S k) - 1)%Z with (Z.of_nat k) in Hsize by lia.
              rewrite Nat2Z.inj_succ, Z.pow_succ_r in * by lia.
              nia.
    + apply Z.ltb_ge in Hpos. assert (n = 0%Z) as -> by lia.
      exists "". repeat split; lia.
Qed.

End Digits.

(** ** Base conversion: what the renderings tell apart *)

Section Renderings.
Import Py convertNumbers Encoding Spec.

Lemma to_binary_positive (v : Z) :
  (0 < v)%Z ->
  decode_from 2 0 (to_binary v) = Some v
  /\ (2 ^ (Z.of_nat (String.length (to_binary v)) - 1) <= v
      < 2 ^ Z.of_nat (String.length (to_binary v)))%Z.
Proof.
  intro Hv. unfold to_binary.
  destruct (0 <=? v)%Z eqn:E; [| apply Z.leb_gt in E; lia].
  destruct (v =? 0)%Z eqn:E0; [apply Z.eqb_eq in E0; lia |].
  destruct (digits_loop_shape 2 str_int ltac:(lia) str_int_renders
              (Z.to_nat v) v []) as (r & Hjoin & Hdec & _ & Hsize); [lia |].
  rewrite Hjoin. cbn [rev join]. rewrite append_empty_r.
  split; [exact Hdec | now apply Hsize].
Qed.

Lemma to_hex_positive (v : Z) :
  (0 < v)%Z ->
  decode_from 16 0 (to_hex v) = Some v
  /\ (16 ^ (Z.of_nat (String.length (to_hex v)) - 1) <= v
      < 16 ^ Z.of_nat (String.length (to_hex v)))%Z.
Proof.
  intro Hv. unfold to_hex.
  destruct (0 <=? v)%Z eqn:E; [| apply Z.leb_gt in E; lia].
  destruct (v =? 0)%Z eqn:E0; [apply Z.eqb_eq in E0; lia |].
  destruct (digits_loop_shape 16 hex_digit ltac:(lia) hex_digit_renders
              (Z.to_nat v) v []) as (r & Hjoin & Hdec & _ & Hsize); [lia |].
  rewrite Hjoin. cbn [rev join]. rewrite append_empty_r.
  split; [exact Hdec | now apply Hsize].
Qed.

(** X1: reading back the binary or the hexadecimal text of a number that
    is not negative gives the number. *)
Theorem nonneg_round_trip (value : Z) :
  (0 <= value)%Z ->
  decode 2 (to_binary value) = Some value
  /\ decode 16 (to_hex value) = Some value.
Proof.
  intro Hv. split;
    [now apply decode_to_binary_nonneg | now apply decode_to_hex_nonneg].
Qed.

Lemma nonneg_round_trip_witness :
  (0 <= 2024)%Z
  /\ decode 2 (to_binary 2024) = Some 2024%Z
  /\ decode 16 (to_hex 2024) = Some 2024%Z.
Proof. split; [lia | apply (nonneg_round_trip 2024); lia]. Defined.

(** X2: the text of a positive number has no leading zero: with [n]
    digits the number is at least [base^(n-1)] and below [base^n]. *)
Theorem positive_shortest (value : Z) :
  (0 < value)%Z ->
  (2 ^ (Z.of_nat (String.length (to_binary value)) - 1) <= value
   < 2 ^ Z.of_nat (String.length (to_binary value)))%Z
  /\ (16 ^ (Z.of_nat (String.length (to_hex value)) - 1) <= value
      < 16 ^ Z.of_nat (String.length (to_hex value)))%Z.
Proof.
  intro Hv. split;
    [now apply to_binary_positive | now apply to_hex_positive].
Qed.

Lemma positive_shortest_witness :
  (0 < 300)%Z
  /\ (2 ^ (Z.of_nat (String.length (to_binary 300)) - 1) <= 300
      < 2 ^ Z.of_nat (String.length (to_binary 300)))%Z
  /\ (16 ^ (Z.of_nat (String.length (to_hex 300)) - 1) <= 300
      < 16 ^ Z.of_nat (String.length (to_hex 300)))%Z.
Proof. split; [lia | apply (positive_shortest 300); lia]. Defined.

(** A positive number whose text has [width] digits is rendered as on
    that fixed width. *)
Lemma to_binary_full_width (width : nat) (u : Z) :
  (0 < width)%nat ->
  (2 ^ (Z.of_nat width - 1) <= u < 2 ^ Z.of_nat width)%Z ->
  to_binary u = bits_fixed width u.
Proof.
  intros Hw Hu.
  assert (Hpos : (0 < u)%Z).
  { assert (0 < 2 ^ (Z.of_nat width - 1))%Z by (apply Z.pow_pos_nonneg; lia). lia. }
  destruct (to_binary_positive u Hpos) as (Hdec & Hsize).
  assert (Hlen : String.length (to_binary u) = width).
  { set (L := String.length (to_binary u)) in *.
    assert (HL : (0 < L)%nat).
    { destruct L; [cbn in Hsize; lia | lia]. }
    assert (Z.of_nat L - 1 < Z.of_nat width)%Z
      by (apply (Z.pow_lt_mono_r_iff 2); lia).
    assert (Z.of_nat width - 1 < Z.of_nat L)%Z
      by (apply (Z.pow_lt_mono_r_iff 2); lia).
    lia. }
  apply (decode_from_inj 2 _ _ u); [lia | | exact Hdec |].
  - now rewrite bits_fixed_length.
  - rewrite decode_from_bits_fixed. f_equal. rewrite Z.mod_small; lia.
Qed.

Lemma to_hex_full_width (width : nat) (u : Z) :
  (0 < width)%nat ->
  (16 ^ (Z.of_nat width - 1) <= u < 16 ^ Z.of_nat width)%Z ->
  to_hex u = hex_fixed width u.
Proof.
  intros Hw Hu.
  assert (Hpos : (0 < u)%Z).
  { assert (0 < 16 ^ (Z.of_nat width - 1))%Z by (apply Z.pow_pos_nonneg; lia). lia. }
  destruct (to_hex_positive u Hpos) as (Hdec & Hsize).
  assert (Hlen : String.length (to_hex u) = width).
  { set (L := String.length (to_hex u)) in *.
    assert (HL : (0 < L)%nat).
    { destruct L; [cbn in Hsize; lia | lia]. }
    assert (Z.of_nat L - 1 < Z.of_nat width)%Z
      by (apply (Z.pow_lt_mono_r_iff 16); lia).
    assert (Z.of_nat width - 1 < Z.of_nat L)%Z
      by (apply (Z.pow_lt_mono_r_iff 16); lia).
    lia. }
  apply (decode_from_inj 16 _ _ u); [lia | | exact Hdec |].
  - now rewrite hex_fixed_length.
  - rewrite decode_from_hex_fixed. f_equal. rewrite Z.mod_small; lia.
Qed.

(** X3: the text of a negative number within the width is also the text
    of a positive number: [to_binary v] is [to_binary (2^10 + v)] from
    -512 on, and [to_hex v] is [to_hex (2^40 + v)] from -2^39 on. *)
Theorem negative_text_is_a_positive_text (value : Z) :
  (value < 0)%Z ->
  ((- 2 ^ 9 <= value)%Z -> to_binary value = to_binary (2 ^ 10 + value))
  /\ ((- 2 ^ 39 <= value)%Z -> to_hex value = to_hex (2 ^ 40 + value)).
Proof.
  intro Hneg. split; intro Hlow.
  - rewrite (to_binary_negative value Hneg).
    symmetry. apply to_binary_full_width; [lia |].
    change (Z.of_nat 10) with 10%Z. lia.
  - rewrite (to_hex_negative value Hneg).
    symmetry. apply to_hex_full_width; [lia |].
    change (16 ^ (Z.of_nat 10 - 1))%Z with (2 ^ 36)%Z.
    change (16 ^ Z.of_nat 10)%Z with (2 ^ 40)%Z. lia.
Qed.

Lemma negative_text_is_a_positive_text_witness :
  (-2 < 0)%Z
  /\ to_binary (-2) = to_binary (2 ^ 10 + -2)
  /\ to_hex (-2) = to_hex (2 ^ 40 + -2).
Proof.
  split; [lia |].
  destruct (negative_text_is_a_positive_text (-2) ltac:(lia)) as (Hb & Hh).
  split; [apply Hb; lia | apply Hh; lia].
Defined.

Lemma Some_Z_inj (a b : Z) : Some a = Some b -> a = b.
Proof. intro Heq. now injection Heq. Qed.

(** X4: two different numbers that are not negative have different
    texts, and so have two different negative numbers of one period
    (from -2^10 for binary, from -2^40 for hexadecimal). *)
Theorem different_numbers_different_texts (v1 v2 : Z) :
  v1 <> v2 ->
  ((0 <= v1)%Z -> (0 <= v2)%Z ->
   to_binary v1 <> to_binary v2 /\ to_hex v1 <> to_hex v2)
  /\ ((- 2 ^ 10 <= v1 < 0)%Z -> (- 2 ^ 10 <= v2 < 0)%Z ->
      to_binary v1 <> to_binary v2)
  /\ ((- 2 ^ 40 <= v1 < 0)%Z -> (- 2 ^ 40 <= v2 < 0)%Z ->
      to_hex v1 <> to_hex v2).
Proof.
  intro Hne. split; [| split].
  - intros H1 H2. split; intro Heq.
    + pose proof (decode_to_binary_nonneg v1 H1) as D1.
      pose proof (decode_to_binary_nonneg v2 H2) as D2.
      rewrite Heq in D1. congruence.
    + pose proof (decode_to_hex_nonneg v1 H1) as D1.
      pose proof (decode_to_hex_nonneg v2 H2) as D2.
      rewrite Heq in D1. congruence.
  - intros H1 H2 Heq.
    assert (Hv1 : (v1 < 0)%Z) by lia. assert (Hv2 : (v2 < 0)%Z) by lia.
    pose proof (eq_trans (eq_sym (to_binary_negative v1 Hv1))
                  (eq_trans Heq (to_binary_negative v2 Hv2))) as E.
    apply (f_equal (decode_from 2 0)) in E.
    rewrite (decode_from_bits_fixed 10 (2 ^ 10 + v1) 0),
      (decode_from_bits_fixed 10 (2 ^ 10 + v2) 0) in E.
    apply Some_Z_inj in E. change (Z.of_nat 10) with 10%Z in E.
    rewrite (Z.mod_small (2 ^ 10 + v1)), (Z.mod_small (2 ^ 10 + v2)) in E by lia.
    lia.
  - intros H1 H2 Heq.
    assert (Hv1 : (v1 < 0)%Z) by lia. assert (Hv2 : (v2 < 0)%Z) by lia.
    pose proof (eq_trans (eq_sym (to_hex_negative v1 Hv1))
                  (eq_trans Heq (to_hex_negative v2 Hv2))) as E.
    apply (f_equal (decode_from 16 0)) in E.
    rewrite (decode_from_hex_fixed 10 (2 ^ 40 + v1) 0),
      (decode_from_hex_fixed 10 (2 ^ 40 + v2) 0) in E.
    apply Some_Z_inj in E. change (16 ^ Z.of_nat 10)%Z with (2 ^ 40)%Z in E.
    rewrite (Z.mod_small (2 ^ 40 + v1)), (Z.mod_small (2 ^ 40 + v2)) in E by lia.
    lia.
Qed.

Lemma different_numbers_different_texts_witness :
  5%Z <> 6%Z
  /\ to_binary 5 <> to_binary 6
  /\ to_hex 5 <> to_hex 6.
Proof.
  split; [discriminate |].
  destruct (different_numbers_different_texts 5 6 ltac:(discriminate))
    as (Hnonneg & _).
  apply Hnonneg; lia.
Defined.

(** X5: below the width the texts repeat: a negative number and the
    number one period lower (2^10 for binary, 2^40 for hexadecimal) have
    the same text. *)
Theorem negative_texts_repeat (value : Z) :
  (value < 0)%Z ->
  to_binary (value - 2 ^ 10) = to_binary value
  /\ to_hex (value - 2 ^ 40) = to_hex value.
Proof.
  intro Hneg.
  assert (Hlow : (value - 2 ^ 10 < 0)%Z) by lia.
  assert (Hlow' : (value - 2 ^ 40 < 0)%Z) by lia.
  split.
  - refine (eq_trans (to_binary_negative _ Hlow)
              (eq_trans _ (eq_sym (to_binary_negative _ Hneg)))).
    refine (eq_trans (eq_sym (bits_fixed_low 10 10 _ (Nat.le_refl _)))
              (eq_trans _ (bits_fixed_low 10 10 _ (Nat.le_refl _)))).
    f_equal. change (Z.of_nat 10) with 10%Z.
    replace (2 ^ 10 + value)%Z with (2 ^ 10 + (value - 2 ^ 10) + 1 * 2 ^ 10)%Z
      by ring.
    now rewrite Z.mod_add by lia.
  - refine (eq_trans (to_hex_negative _ Hlow')
              (eq_trans _ (eq_sym (to_hex_negative _ Hneg)))).
    refine (eq_trans (eq_sym (hex_fixed_low 10 10 _ (Nat.le_refl _)))
              (eq_trans _ (hex_fixed_low 10 10 _ (Nat.le_refl _)))).
    f_equal. change (16 ^ Z.of_nat 10)%Z with (2 ^ 40)%Z.
    replace (2 ^ 40 + value)%Z with (2 ^ 40 + (value - 2 ^ 40) + 1 * 2 ^ 40)%Z
      by ring.
    now rewrite Z.mod_add by lia.
Qed.

Lemma negative_texts_repeat_witness :
  (-3 < 0)%Z
  /\ to_binary (-3 - 2 ^ 10) = to_binary (-3)
  /\ to_hex (-3 - 2 ^ 40) = to_hex (-3).
Proof. split; [lia | apply (negative_texts_repeat (-3)); lia]. Defined.

End Renderings.

(** ** Reading the input *)

Section ReadingLoops.
Import Py Spec Laws.
Context `{Runtime}.

Lemma filter_split_length {A} (f : A -> bool) (l : list A) :
  (List.length (filter f l) + List.length (filter (fun x => negb (f x)) l)
   = List.length l)%nat.
Proof.
  induction l as [| x l IH]; [reflexivity |].
  cbn [filter]. destruct (f x); cbn [negb List.length]; lia.
Qed.

(** The loop of [read_items], from any line number and any lists. *)
Lemma read_items_fold (lines : list string) :
  forall (k : nat) (items : list convertNumbers.item) (errors : list string),
  exists errs,
    fold_left convertNumbers.read_item
              (combine (seq k (List.length lines)) lines) (items, errors)
    = ((items ++ map item_of lines)%list, (errors ++ errs)%list)
    /\ List.length errs
       = List.length (filter (fun it => negb (convertNumbers.is_valid it))
                             (map item_of lines)).
Proof.
  induction lines as [| line lines IH]; intros k items errors.
  - exists []. cbn. now rewrite !app_nil_r.
  - cbn [List.length seq combine fold_left map].
    unfold convertNumbers.read_item at 2. fold (item_of line).
    unfold item_of at 1 2. cbv zeta.
    destruct (String.eqb (strip isspace line) "") eqn:E.
    + destruct (IH (S k) (append items (strip isspace line, None))
                   (append errors
                      ("Line " ++ str_nat k ++ ": empty line (skipped)")))
        as (errs & Hfold & Hlen).
      eexists. split.
      * rewrite Hfold. unfold append. rewrite <- !app_assoc. reflexivity.
      * cbn [filter app List.length]. unfold item_of at 1. cbv zeta. rewrite E.
        cbn [convertNumbers.is_valid snd negb List.length]. now rewrite Hlen.
    + destruct (int_of_text (strip isspace line)) as [v |] eqn:Ev.
      * destruct (IH (S k) (append items (strip isspace line, Some v)) errors)
          as (errs & Hfold & Hlen).
        exists errs. split.
        -- rewrite Hfold. unfold append. rewrite <- !app_assoc. reflexivity.
        -- cbn [filter]. unfold item_of at 1. cbv zeta. rewrite E, Ev.
           cbn [convertNumbers.is_valid snd negb]. exact Hlen.
      * destruct (IH (S k) (append items (strip isspace line, None))
                     (append errors
                        ("Line " ++ str_nat k ++ ": invalid number '"
                           ++ strip isspace line ++ "' (skipped)")))
          as (errs & Hfold & Hlen).
        eexists. split.
        -- rewrite Hfold. unfold append. rewrite <- !app_assoc. reflexivity.
        -- cbn [filter app List.length]. unfold item_of at 1. cbv zeta.
           rewrite E, Ev.
           cbn [convertNumbers.is_valid snd negb List.length]. now rewrite Hlen.
Qed.

(** X6: [read_items] keeps one item per line, in the order of the file:
    the stripped text with its integer, or without one when the line is
    empty or no integer; it records one error per item without a value,
    so the valid items and the errors add up to the lines. *)
Theorem read_items_one_item_per_line (lines : list string) :
  fst (fold_left convertNumbers.read_item (enumerate1 lines) ([], []))
  = map item_of lines
  /\ List.length
       (snd (fold_left convertNumbers.read_item (enumerate1 lines) ([], [])))
     = List.length (filter (fun it => negb (convertNumbers.is_valid it))
                           (map item_of lines))
  /\ (List.length
        (filter convertNumbers.is_valid
           (fst (fold_left convertNumbers.read_item (enumerate1 lines) ([], []))))
      + List.length
          (snd (fold_left convertNumbers.read_item (enumerate1 lines) ([], [])))
      = List.length lines)%nat.
Proof.
  unfold enumerate1.
  destruct (read_items_fold lines 1 [] []) as (errs & -> & Hlen).
  cbn [fst snd app]. split; [reflexivity |]. split; [exact Hlen |].
  rewrite Hlen, filter_split_length. apply length_map.
Qed.

Lemma read_numbers_fold (lines : list string) :
  forall (k : nat) (numbers : list float) (errors : list string),
  exists errs,
    fold_left computeStatistics.read_number
              (combine (seq k (List.length lines)) lines) (numbers, errors)
    = ((numbers ++ numbers_of lines)%list, (errors ++ errs)%list)
    /\ (List.length (numbers_of lines) + List.length errs
        = List.length lines)%nat.
Proof.
  induction lines as [| line lines IH]; intros k numbers errors.
  - exists []. cbn. now rewrite !app_nil_r.
  - cbn [List.length seq combine fold_left].
    unfold computeStatistics.read_number at 2.
    unfold numbers_of. cbn [flat_map]. fold (numbers_of lines).
    unfold number_of. cbv zeta.
    destruct (String.eqb (strip isspace line) "") eqn:E.
    + destruct (IH (S k) numbers
                   (append errors
                      ("Line " ++ str_nat k ++ ": empty line (skipped)")))
        as (errs & Hfold & Hlen).
      eexists. split.
      * rewrite Hfold. unfold append. rewrite <- !app_assoc. reflexivity.
      * cbn [app List.length]. lia.
    + destruct (float_of_text (strip isspace line)) as [x |] eqn:Ex.
      * destruct (IH (S k) (append numbers x) errors) as (errs & Hfold & Hlen).
        exists errs. split.
        -- rewrite Hfold. unfold append. rewrite <- !app_assoc. reflexivity.
        -- cbn [app List.length]. lia.
      * destruct (IH (S k) numbers
                     (append errors
                        ("Line " ++ str_nat k ++ ": invalid number '"
                           ++ strip isspace line ++ "' (skipped)")))
          as (errs & Hfold & Hlen).
        eexists. split.
        -- rewrite Hfold. unfold append. rewrite <- !app_assoc. reflexivity.
        -- cbn [app List.length]. lia.
Qed.

(** X7: [read_numbers] keeps the numbers of the lines that hold one, in
    the order of the file, and records one error for every other line:
    the numbers and the errors add up to the lines. *)
Theorem read_numbers_in_order (lines : list string) :
  fst (fold_left computeStatistics.read_number (enumerate1 lines) ([], []))
  = numbers_of lines
  /\ (List.length
        (fst (fold_left computeStatistics.read_number (enumerate1 lines) ([], [])))
      + List.length
          (snd (fold_left computeStatistics.read_number (enumerate1 lines) ([], [])))
      = List.length lines)%nat.
Proof.
  unfold enumerate1.
  destruct (read_numbers_fold lines 1 [] []) as (errs & -> & Hlen).
  cbn [fst snd app]. split; [reflexivity | exact Hlen].
Qed.

End ReadingLoops.

(** ** Reading the words *)

Section ReadingWords.
Import Py Spec Laws wordCount.
Context `{Runtime}.

Lemma token_not_empty (part : string) : token part <> "".
Proof.
  unfold token. destruct (String.eqb (reduced part) "") eqn:E; [discriminate |].
  now apply String.eqb_neq.
Qed.

Lemma read_words_fold (lines : list string) :
  forall (k : nat) (words errors : list string),
  exists errs,
    fold_left read_line (combine (seq k (List.length lines)) lines) (words, errors)
    = ((words ++ flat_map words_of lines)%list, (errors ++ errs)%list)
    /\ List.length errs = List.length (filter blank lines).
Proof.
  induction lines as [| line lines IH]; intros k words errors.
  - exists []. cbn. now rewrite !app_nil_r.
  - cbn [List.length seq combine fold_left flat_map filter].
    unfold read_line at 2. unfold words_of at 1. unfold blank at 1 2.
    destruct (String.eqb (strip isspace (rstrip (Ascii.eqb "010"%char) line)) "")
      eqn:E.
    + destruct (IH (S k) words
                   (append errors
                      ("Line " ++ str_nat k ++ ": empty line (skipped)")))
        as (errs & Hfold & Hlen).
      eexists. split.
      * rewrite Hfold. unfold append. rewrite <- !app_assoc. reflexivity.
      * cbn [app List.length]. now rewrite Hlen.
    + rewrite add_parts_tokens.
      destruct (IH (S k)
                   (words ++ map token
                      (split " "%char (rstrip (Ascii.eqb "010"%char) line)))%list
                   errors) as (errs & Hfold & Hlen).
      exists errs. split; [| exact Hlen].
      rewrite Hfold. now rewrite <- !app_assoc.
Qed.

(** X8: [read_words] gives the words of the lines that are not blank, in
    the order of the file, and one error for every blank line; no word is
    the empty string. *)
Theorem read_words_in_order (lines : list string) :
  fst (fold_left read_line (enumerate1 lines) ([], [])) = flat_map words_of lines
  /\ List.length (snd (fold_left read_line (enumerate1 lines) ([], [])))
     = List.length (filter blank lines)
  /\ Forall (fun w => w <> "")
            (fst (fold_left read_line (enumerate1 lines) ([], []))).
Proof.
  unfold enumerate1.
  destruct (read_words_fold lines 1 [] []) as (errs & -> & Hlen).
  cbn [fst snd app]. split; [reflexivity |]. split; [exact Hlen |].
  apply Forall_forall. intros w Hw.
  apply in_flat_map in Hw. destruct Hw as (line & _ & Hw).
  unfold words_of in Hw. destruct (blank line); [contradiction |].
  apply in_map_iff in Hw. destruct Hw as (part & <- & _).
  apply token_not_empty.
Qed.

Lemma split_length (sep : ascii) (s : string) :
  List.length (split sep s) = S (count_char sep s).
Proof.
  unfold count_char. induction s as [| c r IH]; [reflexivity |].
  cbn [split list_ascii_of_string count_occ].
  destruct (Ascii.eqb c sep) eqn:E.
  - apply Ascii.eqb_eq in E. subst c.
    destruct (ascii_dec sep sep) as [_ | Hne]; [| congruence].
    cbn [List.length]. now rewrite IH.
  - apply Ascii.eqb_neq in E.
    destruct (ascii_dec c sep) as [Heq | _]; [congruence |].
    pose proof (split_nonempty sep r) as Hne.
    destruct (split sep r) as [| w ws]; [congruence |].
    cbn [List.length] in *. exact IH.
Qed.

(** X9: a line that is not blank adds one word more than it has spaces,
    whatever else it holds. *)
Theorem words_per_line (words errors : list string) (line_number : nat)
        (line : string) :
  blank line = false ->
  List.length (fst (read_line (words, errors) (line_number, line)))
  = (List.length words
     + S (count_char " "%char (rstrip (Ascii.eqb "010"%char) line)))%nat.
Proof.
  intro Hline. unfold read_line. unfold blank in Hline. rewrite Hline.
  cbn [fst]. rewrite add_parts_tokens, length_app, length_map.
  now rewrite split_length.
Qed.

End ReadingWords.

Lemma words_per_line_witness :
  @Laws.blank Example.runtime " one,  two " = false
  /\ List.length
       (fst (@wordCount.read_line Example.runtime (["x"], []) (1%nat, " one,  two ")))
     = 6%nat.
Proof.
  split; [reflexivity |].
  rewrite (@words_per_line Example.runtime ["x"] [] 1%nat " one,  two " eq_refl).
  reflexivity.
Defined.

(** ** Looking words up *)

Section Lookup.
Import Py Spec wordCount.

(** X10: looking a word up in the table of [count_frequencies], with 0
    for a missing key as the loop does, gives the number of occurrences of
    the word in the input: 0 exactly for the words that do not occur, and
    every count that the table holds is at least 1. *)
Theorem lookup_counts_occurrences (words : list string) (w : string) :
  dict_get String.eqb (count_frequencies words) w 0%nat
  = count_occ string_dec words w
  /\ (dict_get String.eqb (count_frequencies words) w 0%nat = 0%nat
      <-> ~ In w words)
  /\ Forall (fun entry => (1 <= snd entry)%nat) (count_frequencies words).
Proof.
  assert (Hget : dict_get String.eqb (count_frequencies words) w 0%nat
                 = count_occ string_dec words w).
  { rewrite count_frequencies_tally.
    rewrite (dict_get_tally String.eqb String.eqb_sym string_eqb_trans).
    apply occurrences_count_occ. }
  split; [exact Hget |]. split.
  - rewrite Hget. symmetry. apply count_occ_not_In.
  - rewrite count_frequencies_spec. apply Forall_forall.
    intros entry Hentry. apply in_map_iff in Hentry.
    destruct Hentry as (k & <- & Hk). cbn beta. cbn [snd].
    pose proof (proj1 (distinct_In words k) Hk) as Hin.
    pose proof (proj1 (count_occ_In string_dec words k) Hin). lia.
Qed.

End Lookup.

(** ** Runs that reach the report *)

Section Success.
Import Py Utility Laws.
Context `{Runtime}.




End Success.


(** ** Signs of the statistics *)

Section Signs.
Import Py computeStatistics Spec Laws.

Lemma binary_round_aux_sign (prec emax mx ex : Z) (lx : location) :
  not_negative (binary_round_aux prec emax false mx ex lx).
Proof.
  unfold binary_round_aux.
  destruct (shr_fexp prec emax mx ex lx) as [mrs' e'].
  destruct (shr_fexp prec emax _ e' loc_Exact) as [mrs'' e''].
  destruct (shr_m mrs'') as [| p | p]; cbn; auto.
  destruct (Z.leb e'' _); cbn; auto.
Qed.

Lemma binary_normalize_sign (prec emax m e : Z) :
  (0 <= m)%Z -> not_negative (binary_normalize prec emax m e false).
Proof.
  intro Hm. unfold binary_normalize, binary_round.
  destruct m as [| p | p]; [reflexivity | | lia].
  destruct (shl_align _ _ _) as [mz ez]. apply binary_round_aux_sign.
Qed.

Lemma mul_not_negative (f1 f2 : spec_float) :
  not_negative f1 -> not_negative f2 -> not_negative (SF64mul f1 f2).
Proof.
  unfold SF64mul, SFmul.
  destruct f1 as [s1 | s1 | | s1 m1 e1], f2 as [s2 | s2 | | s2 m2 e2];
    cbn [not_negative]; intros H1 H2; subst; cbn; auto.
  apply binary_round_aux_sign.
Qed.

Lemma square_not_negative (f : spec_float) : not_negative (SF64mul f f).
Proof.
  unfold SF64mul, SFmul.
  destruct f as [s | s | | s m e]; cbn [not_negative]; auto.
  - apply xorb_nilpotent.
  - apply xorb_nilpotent.
  - rewrite xorb_nilpotent. apply binary_round_aux_sign.
Qed.

Lemma add_not_negative (f1 f2 : spec_float) :
  not_negative f1 -> not_negative f2 -> not_negative (SF64add f1 f2).
Proof.
  unfold SF64add, SFadd.
  destruct f1 as [s1 | s1 | | s1 m1 e1], f2 as [s2 | s2 | | s2 m2 e2];
    cbn [not_negative]; intros H1 H2; subst; cbn [not_negative]; auto.
  cbv zeta. cbn [cond_Zopp]. apply binary_normalize_sign. lia.
Qed.

Lemma div_not_negative (f1 f2 : spec_float) :
  not_negative f1 -> not_negative f2 -> not_negative (SF64div f1 f2).
Proof.
  unfold SF64div, SFdiv.
  destruct f1 as [s1 | s1 | | s1 m1 e1], f2 as [s2 | s2 | | s2 m2 e2];
    cbn [not_negative]; intros H1 H2; subst; cbn [not_negative xorb]; auto.
  destruct (SFdiv_core_binary prec emax (Z.pos m1) e1 (Z.pos m2) e2)
    as [[mz ez] lz].
  apply binary_round_aux_sign.
Qed.

Lemma float_of_nat_not_negative (n : nat) :
  not_negative (Prim2SF (float_of_nat n)).
Proof.
  unfold float_of_nat. rewrite of_uint63_spec.
  apply binary_normalize_sign. apply Uint63.to_Z_bounded.
Qed.

Lemma not_negative_ltb (x : float) :
  not_negative (Prim2SF x) -> (x <? 0)%float = false.
Proof.
  rewrite ltb_spec. change (Prim2SF 0) with (S754_zero false).
  destruct (Prim2SF x) as [s | s | | s m e]; cbn [not_negative];
    intro Hs; subst; reflexivity.
Qed.

Lemma variance_not_negative (values : list float) (avg : float) :
  not_negative (Prim2SF (variance values avg)).
Proof.
  unfold variance. cbv zeta.
  destruct (List.length values <? 2)%nat; [reflexivity |].
  rewrite div_spec. apply div_not_negative; [| apply float_of_nat_not_negative].
  assert (G : forall total,
             not_negative (Prim2SF total) ->
             not_negative
               (Prim2SF
                  (fold_left (fun total value =>
                                let diff := (value - avg)%float in
                                (total + diff * diff)%float) values total))).
  { induction values as [| v values IH]; intros total Ht; [exact Ht |].
    cbn [fold_left]. apply IH. cbv zeta.
    rewrite add_spec, mul_spec.
    apply add_not_negative; [exact Ht | apply square_not_negative]. }
  apply G. reflexivity.
Qed.

(** X12: whatever the values and the mean, NaN and infinities included,
    [variance] never gives a number below zero, and neither does the
    population variance that [main] hands to [standard_deviation]. *)
Theorem variance_never_negative (values : list float) (avg : float) :
  (variance values avg <? 0)%float = false
  /\ (population_variance values <? 0)%float = false.
Proof.
  split; apply not_negative_ltb.
  - apply variance_not_negative.
  - unfold population_variance. rewrite div_spec, mul_spec.
    apply div_not_negative; [| apply float_of_nat_not_negative].
    apply mul_not_negative;
      [apply variance_not_negative | apply float_of_nat_not_negative].
Qed.

End Signs.

(** ** Where the median and the mode come from *)

Section Origins.
Import Py computeStatistics Spec.

(** X13: on samples without NaN, where [sorted] is Python's sort, the
    median of an odd number of samples is one of the samples, and the
    median of an even number of them is the half of the sum of two of
    them. *)
Theorem median_comes_from_samples (values : list float) :
  values <> [] ->
  Forall numeric values ->
  (Nat.odd (List.length values) = true -> In (median values) values)
  /\ (Nat.odd (List.length values) = false ->
      exists a b,
        In a values /\ In b values /\ median values = ((a + b) / 2)%float).
Proof.
  intros Hne _.
  assert (Hpos : (0 < List.length values)%nat).
  { destruct values; [congruence | cbn; lia]. }
  assert (Hmid : (List.length values / 2 < List.length values)%nat)
    by (apply Nat.div_lt; lia).
  assert (Hparity : (List.length values mod 2 =? 1)%nat
                    = Nat.odd (List.length values)).
  { rewrite <- Nat.bit0_mod, Nat.bit0_odd.
    destruct (Nat.odd (List.length values)); reflexivity. }
  unfold median. cbv zeta. rewrite sorted_length, Hparity.
  split; intros ->.
  - now apply nth_sorted_in.
  - eexists. eexists. split; [| split; [| reflexivity]];
      apply nth_sorted_in; lia.
Qed.

Lemma median_comes_from_samples_witness :
  [9; 4; 7]%float <> []
  /\ Forall numeric [9; 4; 7]%float
  /\ Nat.odd (List.length [9; 4; 7]%float) = true
  /\ In (median [9; 4; 7]%float) [9; 4; 7]%float.
Proof.
  assert (Hne : [9; 4; 7]%float <> []) by discriminate.
  assert (Hnum : Forall numeric [9; 4; 7]%float) by (repeat constructor).
  split; [exact Hne |]. split; [exact Hnum |]. split; [reflexivity |].
  exact (proj1 (median_comes_from_samples [9; 4; 7]%float Hne Hnum) eq_refl).
Defined.

Lemma occurrences_member (values : list float) (b : float) :
  numeric b -> In b values -> (1 <= occurrences PrimFloat.eqb b values)%nat.
Proof.
  intros Hb Hin. unfold occurrences.
  assert (Hf : In b (filter (PrimFloat.eqb b) values)).
  { apply filter_In. split; [exact Hin | now apply eqb_refl]. }
  destruct (filter (PrimFloat.eqb b) values); [contradiction | cbn; lia].
Qed.

(** X14: on numeric samples, a mode that is not None is one of the
    samples and occurs at least twice among them. *)
Theorem mode_occurs_twice (values : list float) (best : float) :
  Forall numeric values ->
  mode values = Some best ->
  In best values /\ (2 <= occurrences PrimFloat.eqb best values)%nat.
Proof.
  intros Hnum Hmode. unfold mode in Hmode. cbv zeta in Hmode.
  rewrite (max_count_spec values Hnum) in Hmode.
  destruct (max_frequency values =? 1)%nat eqn:E; [discriminate |].
  apply Nat.eqb_neq in E.
  rewrite (frequencies_spec values Hnum) in Hmode.
  assert (Hkeys : Forall numeric (distinct PrimFloat.eqb values)).
  { rewrite Forall_forall in Hnum |- *. intros k Hk.
    now apply Hnum, (distinct_incl PrimFloat.eqb). }
  pose proof (pick_fold values (max_frequency values)
                (distinct PrimFloat.eqb values) [] None Hkeys
                (Forall_nil _) (fun k (Hk : In k []) => match Hk with end))
    as Hpicked.
  cbn [app] in Hpicked. rewrite Hmode in Hpicked. cbn [picked] in Hpicked.
  destruct Hpicked as (Hbest & Hcount & _).
  assert (Hin : In best values) by now apply (distinct_incl PrimFloat.eqb).
  split; [exact Hin |].
  assert (Hb : numeric best) by (rewrite Forall_forall in Hnum; now apply Hnum).
  pose proof (occurrences_member values best Hb Hin). lia.
Qed.

Lemma mode_occurs_twice_witness :
  Forall numeric [6; 2; 6; 2; 1]%float
  /\ mode [6; 2; 6; 2; 1]%float = Some 6%float
  /\ In 6%float [6; 2; 6; 2; 1]%float
  /\ (2 <= occurrences PrimFloat.eqb 6%float [6; 2; 6; 2; 1]%float)%nat.
Proof.
  assert (Hnum : Forall numeric [6; 2; 6; 2; 1]%float) by (repeat constructor).
  split; [exact Hnum |]. split; [reflexivity |].
  exact (mode_occurs_twice [6; 2; 6; 2; 1]%float 6%float Hnum eq_refl).
Defined.

End Origins.

(** ** Normalising a token *)

Section Normalising.
Import Py Spec wordCount.
Context `{Runtime}.

Lemma list_ascii_of_string_app (a b : string) :
  list_ascii_of_string (a ++ b)
  = (list_ascii_of_string a ++ list_ascii_of_string b)%list.
Proof. induction a as [| c r IH]; cbn; [reflexivity | now rewrite IH]. Qed.

Lemma join_empty_append (l1 l2 : list string) :
  join "" (l1 ++ l2)%list = join "" l1 ++ join "" l2.
Proof.
  induction l1 as [| d l IH]; [reflexivity |].
  rewrite <- app_comm_cons, !join_empty_cons, IH, append_assoc. reflexivity.
Qed.

(** X15: [normalize_token] works character by character: the normal form
    of two texts put together is their normal forms put together, so a
    character that is dropped never cuts a word in two. *)
Theorem normalize_token_app (a b : string) :
  normalize_token (a ++ b) = normalize_token a ++ normalize_token b.
Proof.
  rewrite !normalize_token_reduced. unfold reduced.
  rewrite <- !join_concat.
  rewrite list_ascii_of_string_app, filter_app, map_app.
  apply join_empty_append.
Qed.

End Normalising.
